(** * Food-delivery time prediction: training labels and the predictor

    A shallow embedding of [model/train_model.py] and [model/predict.py].

    Numbers.  Python and numpy floats are modelled by exact rationals [Q];
    the places where the source can produce a non-finite value (numpy
    division by zero in [predict]) are modelled by the small extended type
    [npfloat].  Python-level division by zero raises [ZeroDivisionError].

    Randomness.  numpy's global generator is a state of an abstract type
    with one primitive per sampler used by the source ([RandomState]); the
    generator functions thread that state explicitly.

    Containers.  The one-row [DataFrame] of [preprocess_input], the
    encoders of the bundle and the literal lookup tables are finite maps
    keyed by name ([gmap string _]); the frame built by
    [generate_sample_data] is the list of its rows.  The predictor's input
    is the mapping form (a [dict] typed by the Order Record schema, each
    field possibly absent); a [DataFrame] handed to [predict] is outside
    the embedding.

    scikit-learn.  The fitted objects of the bundle are modelled by what
    [predict.py] asks of them: a label encoder by its classes, a scaler by
    its means and scales, a forest by its trees, each tree by its
    prediction function. *)

From Stdlib Require Import ZArith QArith Qabs Qround Qminmax Lqa Lia.
From Stdlib Require Import String List Sorted.
From stdpp Require Import base option strings list gmap sorting.

Import ListNotations.
Local Open Scope string_scope.
Local Open Scope Q_scope.

(** ** Numeric primitives of Python and numpy *)

Module Num.

(** [a < b] on rationals, as a boolean. *)
Definition Qlt_bool (a b : Q) : bool := negb (Qle_bool b a).

(** Python's builtin [max(a, b)]: the first argument is kept unless the
    second is strictly greater. *)
Definition py_max (a b : Q) : Q := if Qlt_bool a b then b else a.

(** [np.maximum(a, b)] on finite values. *)
Definition np_maximum (a b : Q) : Q := if Qlt_bool a b then b else a.

(** [np.abs]. *)
Definition np_abs (a : Q) : Q := Qabs a.

(** Python's [round(x)] with one argument: the nearest integer, ties
    going to the even neighbour. *)
Definition py_round (x : Q) : Z :=
  let f := Qfloor x in
  let r := x - inject_Z f in
  if Qlt_bool r (1 # 2) then f
  else if Qlt_bool (1 # 2) r then (f + 1)%Z
  else if Z.even f then f else (f + 1)%Z.

(** Python's true division on numbers. *)
Definition py_div (a b : Q) : option Q :=
  if Qeq_bool b 0 then None else Some (a / b).

End Num.

(** ** Exceptions and results *)

Inductive exn : Type :=
| ValueError (msg : string)
| KeyError (key : string)
| TypeError (msg : string)
| AttributeError (msg : string)
| ZeroDivisionError.

Inductive result (A : Type) : Type :=
| Ok (a : A)
| Raise (e : exn).
Arguments Ok {A} a.
Arguments Raise {A} e.

Definition rbind {A B} (r : result A) (k : A -> result B) : result B :=
  match r with
  | Ok a => k a
  | Raise e => Raise e
  end.

(** ** train_model.py *)

Module Train.

(** One row of the training frame (an Order Record). *)
Record order : Type := mk_order {
  delivery_person_rating : Q;
  distance_km : Q;
  preparation_time : Q;
  vehicle_type : string;
  order_type : string;
  weather_condition : string;
  time_of_day : string;
  day_of_week : string
}.

(** The samplers of [np.random] used by the source, one draw at a time,
    over the state of the global generator. *)
Class RandomState (rng : Type) : Type := {
  seed : Z -> rng;
  uniform : Q -> Q -> rng -> Q * rng;
  exponential : Q -> rng -> Q * rng;
  normal : Q -> Q -> rng -> Q * rng;
  choice : list string -> option (list Q) -> rng -> string * rng
}.

Section Generator.
Context {rng : Type} `{RandomState rng}.

(** A sampler called with [size = n]: [n] successive draws. *)
Fixpoint draws {A} (draw : rng -> A * rng) (n : nat) (s : rng)
  : list A * rng :=
  match n with
  | O => ([], s)
  | S n' =>
      let '(x, s1) := draw s in
      let '(xs, s2) := draws draw n' s1 in
      (x :: xs, s2)
  end.

(** The dict of columns built by [generate_sample_data]. *)
Record columns : Type := mk_columns {
  c_delivery_person_rating : list Q;
  c_distance_km : list Q;
  c_preparation_time : list Q;
  c_vehicle_type : list string;
  c_order_type : list string;
  c_weather_condition : list string;
  c_time_of_day : list string;
  c_day_of_week : list string
}.

(** [pd.DataFrame(data)] for columns of [n] entries: the list of rows. *)
Definition DataFrame (n : nat) (d : columns) : list order :=
  map (fun i =>
         {| delivery_person_rating := nth i (c_delivery_person_rating d) 0;
            distance_km := nth i (c_distance_km d) 0;
            preparation_time := nth i (c_preparation_time d) 0;
            vehicle_type := nth i (c_vehicle_type d) "";
            order_type := nth i (c_order_type d) "";
            weather_condition := nth i (c_weather_condition d) "";
            time_of_day := nth i (c_time_of_day d) "";
            day_of_week := nth i (c_day_of_week d) "" |})
      (seq 0 n).

Definition set_distance_km (f : Q -> Q) (r : order) : order :=
  {| delivery_person_rating := delivery_person_rating r;
     distance_km := f (distance_km r);
     preparation_time := preparation_time r;
     vehicle_type := vehicle_type r;
     order_type := order_type r;
     weather_condition := weather_condition r;
     time_of_day := time_of_day r;
     day_of_week := day_of_week r |}.

Definition set_preparation_time (f : Q -> Q) (r : order) : order :=
  {| delivery_person_rating := delivery_person_rating r;
     distance_km := distance_km r;
     preparation_time := f (preparation_time r);
     vehicle_type := vehicle_type r;
     order_type := order_type r;
     weather_condition := weather_condition r;
     time_of_day := time_of_day r;
     day_of_week := day_of_week r |}.

(** [generate_sample_data(n_samples)], run from the generator state
    [s0] the caller happens to be in; returns the frame and the state
    left behind. *)
Definition generate_sample_data (n_samples : nat) (s0 : rng)
  : list order * rng :=
  let s := seed 42 in
  let '(ratings, s) := draws (uniform 1 5) n_samples s in
  let '(distances, s) := draws (exponential 3) n_samples s in
  let '(preps, s) := draws (normal 15 5) n_samples s in
  let '(vehicles, s) :=
    draws (choice ["bike"; "bicycle"] (Some [7 # 10; 3 # 10]))
          n_samples s in
  let '(orders, s) :=
    draws (choice ["normal"; "delicate"] (Some [8 # 10; 2 # 10]))
          n_samples s in
  let '(weathers, s) :=
    draws (choice ["clear"; "cloudy"; "light_rain"; "heavy_rain"; "storm"]
                  (Some [4 # 10; 3 # 10; 15 # 100; 1 # 10; 5 # 100]))
          n_samples s in
  let '(times, s) :=
    draws (choice ["morning"; "afternoon"; "evening"; "night"] None)
          n_samples s in
  let '(days, s) :=
    draws (choice ["weekday"; "weekend"] (Some [7 # 10; 3 # 10]))
          n_samples s in
  let data := mk_columns ratings distances preps vehicles orders
                         weathers times days in
  let df := DataFrame n_samples data in
  let df := map (set_distance_km Num.np_abs) df in
  let df := map (set_preparation_time (fun x => Num.np_maximum x 5)) df in
  (df, s).

(** The two lookup tables of [calculate_delivery_time]. *)
Definition weather_delays : gmap string Z :=
  list_to_map [("clear", 0%Z); ("cloudy", 1%Z); ("light_rain", 3%Z);
               ("heavy_rain", 8%Z); ("storm", 15%Z)].

Definition time_delays : gmap string Z :=
  list_to_map [("morning", 2%Z); ("afternoon", 1%Z); ("evening", 4%Z);
               ("night", 0%Z)].

(** [dict.get(key, default)]. *)
Definition dict_get {V} (d : gmap string V) (key : string) (dflt : V) : V :=
  default dflt (d !! key).

(** The body of the loop of [calculate_delivery_time] up to the noise:
    the row's total time before the noise is added. *)
Definition total_before_noise (row : order) : result Q :=
  let base_speed :=
    if String.eqb (vehicle_type row) "bike" then 35 # 10 else 5 in
  let travel_time := distance_km row * base_speed in
  let efficiency := (delivery_person_rating row / 5) * (8 # 10) + (2 # 10) in
  match Num.py_div travel_time efficiency with
  | None => Raise ZeroDivisionError
  | Some travel_time =>
      let weather_delay :=
        dict_get weather_delays (weather_condition row) 0%Z in
      let order_delay :=
        if String.eqb (order_type row) "delicate" then 3%Z else 0%Z in
      let time_delay := dict_get time_delays (time_of_day row) 0%Z in
      let weekend_factor :=
        if String.eqb (day_of_week row) "weekend" then 9 # 10 else 1 in
      Ok ((preparation_time row + travel_time + inject_Z weather_delay
           + inject_Z order_delay + inject_Z time_delay) * weekend_factor)
  end.

(** The rest of the loop body: add the noise drawn for the row and
    floor the result at 10 minutes. *)
Definition delivery_time_of_row (row : order) (noise : Q) : result Q :=
  rbind (total_before_noise row)
        (fun total_time =>
           let total_time := total_time + noise in
           Ok (Num.py_max total_time 10)).

(** [calculate_delivery_time(df)]: one draw of [normal(0, 2)] per row,
    in row order. *)
Fixpoint calculate_delivery_time (df : list order) (s : rng)
  : result (list Q) * rng :=
  match df with
  | [] => (Ok [], s)
  | row :: rest =>
      match total_before_noise row with
      | Raise e => (Raise e, s)
      | Ok total_time =>
          let '(noise, s1) := normal 0 2 s in
          let t := Num.py_max (total_time + noise) 10 in
          let '(r, s2) := calculate_delivery_time rest s1 in
          (rbind r (fun ts => Ok (t :: ts)), s2)
      end
  end.

End Generator.

(** The feature columns selected by [preprocess_features]; they become
    the bundle's ['feature_columns']. *)
Definition feature_cols : list string :=
  ["delivery_person_rating"; "distance_km"; "preparation_time";
   "vehicle_type_encoded"; "order_type_encoded"; "weather_condition_encoded";
   "time_of_day_encoded"; "day_of_week_encoded";
   "distance_squared"; "rating_distance_interaction"].

(** The categorical columns [preprocess_features] fits an encoder for. *)
Definition categorical_cols : list string :=
  ["vehicle_type"; "order_type"; "weather_condition"; "time_of_day";
   "day_of_week"].

End Train.

(** ** numpy values that need not be finite *)

Module Np.

(** A float64 produced by numpy arithmetic: finite, an infinity or NaN.
    The rationals have one zero; it stands for [+0.0]. *)
Inductive npfloat : Type :=
| Finite (q : Q)
| Inf (negative : bool)
| NaN.

(** Elementwise [a / b] on finite operands: no exception, division by
    zero gives an infinity, or NaN for [0 / 0]. *)
Definition np_div (a b : Q) : npfloat :=
  if Qeq_bool b 0 then
    if Qeq_bool a 0 then NaN else Inf (Num.Qlt_bool a 0)
  else Finite (a / b).

(** [a - x] for a finite [a]. *)
Definition np_rsub (a : Q) (x : npfloat) : npfloat :=
  match x with
  | Finite q => Finite (a - q)
  | Inf negative => Inf (negb negative)
  | NaN => NaN
  end.

(** [np.maximum(a, x)] for a finite [a]: NaN propagates. *)
Definition np_maximum (a : Q) (x : npfloat) : npfloat :=
  match x with
  | Finite q => Finite (Num.np_maximum a q)
  | Inf true => Finite a
  | Inf false => Inf false
  | NaN => NaN
  end.

Definition is_finite (x : npfloat) : option Q :=
  match x with
  | Finite q => Some q
  | _ => None
  end.

(** Square root on the rationals, truncated to a multiple of [2^-64];
    it stands for the correctly rounded float64 square root. *)
Definition np_sqrt (x : Q) : Q :=
  if Qle_bool x 0 then 0
  else inject_Z (Z.sqrt (Qfloor (x * inject_Z (2 ^ 128)))) / inject_Z (2 ^ 64).

Definition np_sum (xs : list Q) : Q := fold_right Qplus 0 xs.

(** [np.mean] of a non-empty vector. *)
Definition np_mean (xs : list Q) : Q :=
  np_sum xs / inject_Z (Z.of_nat (length xs)).

(** [np.std]: the population standard deviation. *)
Definition np_std (xs : list Q) : Q :=
  let m := np_mean xs in
  np_sqrt (np_mean (map (fun x => Qabs (x - m) * Qabs (x - m)) xs)).

End Np.

(** ** predict.py *)

Module Predict.
Import Np.

(** A cell of a frame or a value of the input dict. *)
Inductive value : Type :=
| VNum (q : Q)
| VStr (s : string).

(** The input mapping, typed by the Order Record schema; a field the
    caller left out is [None]. *)
Record order_input : Type := mk_input {
  in_delivery_person_rating : option Q;
  in_distance_km : option Q;
  in_preparation_time : option Q;
  in_vehicle_type : option string;
  in_order_type : option string;
  in_weather_condition : option string;
  in_time_of_day : option string;
  in_day_of_week : option string
}.

(** What [predict] can be handed: a dict, or an object that is neither
    a dict nor a DataFrame. (DataFrame input is not modelled.) *)
Inductive input_data : Type :=
| InDict (d : order_input)
| InOther.

Definition put (key : string) (v : option value)
           (df : gmap string value) : gmap string value :=
  match v with
  | Some x => <[key := x]> df
  | None => df
  end.

(** [pd.DataFrame([input_data])]: one row, one column per key present. *)
Definition to_frame (d : order_input) : gmap string value :=
  put "delivery_person_rating" (VNum <$> in_delivery_person_rating d)
  (put "distance_km" (VNum <$> in_distance_km d)
  (put "preparation_time" (VNum <$> in_preparation_time d)
  (put "vehicle_type" (VStr <$> in_vehicle_type d)
  (put "order_type" (VStr <$> in_order_type d)
  (put "weather_condition" (VStr <$> in_weather_condition d)
  (put "time_of_day" (VStr <$> in_time_of_day d)
  (put "day_of_week" (VStr <$> in_day_of_week d) ∅))))))).

(** *** The fitted scikit-learn objects held by the bundle *)

(** [LabelEncoder]: the sorted classes seen at fit time. *)
Record LabelEncoder : Type := { classes_ : list string }.

Fixpoint index_of (s : string) (l : list string) : option nat :=
  match l with
  | [] => None
  | c :: l' => if String.eqb s c then Some O else S <$> index_of s l'
  end.

(** [LabelEncoder.transform] on a one-row column. *)
Definition le_transform (le : LabelEncoder) (v : value) : result Z :=
  match v with
  | VStr s =>
      match index_of s (classes_ le) with
      | Some i => Ok (Z.of_nat i)
      | None => Raise (ValueError "y contains previously unseen labels")
      end
  | VNum _ => Raise (ValueError "y contains previously unseen labels")
  end.

(** [StandardScaler]: per-feature mean and scale. *)
Record StandardScaler : Type := { mean_ : list Q; scale_ : list Q }.

Fixpoint as_floats (X : list value) : result (list Q) :=
  match X with
  | [] => Ok []
  | VNum q :: X' => rbind (as_floats X') (fun qs => Ok (q :: qs))
  | VStr _ :: _ => Raise (ValueError "could not convert string to float")
  end.

Fixpoint standardize (xs means scales : list Q) : list npfloat :=
  match xs, means, scales with
  | x :: xs', m :: means', s :: scales' =>
      np_div (x - m) s :: standardize xs' means' scales'
  | _, _, _ => []
  end.

(** [StandardScaler.transform] on a one-row frame. *)
Definition scaler_transform (sc : StandardScaler) (X : list value)
  : result (list npfloat) :=
  rbind (as_floats X) (fun xs =>
    if Nat.eqb (length xs) (length (mean_ sc))
    then Ok (standardize xs (mean_ sc) (scale_ sc))
    else Raise (ValueError "X has a different number of features than StandardScaler is expecting")).

(** A fitted regression tree, by its prediction on one sample. *)
Definition estimator : Type := list Q -> Q.

(** [RandomForestRegressor]: a fitted forest has at least one tree. *)
Record RandomForestRegressor : Type := {
  first_estimator : estimator;
  more_estimators : list estimator
}.

Definition estimators_ (m : RandomForestRegressor) : list estimator :=
  first_estimator m :: more_estimators m.

(** Input validation of the forest and of its trees: every entry of the
    sample must be finite. *)
Fixpoint check_array (X : list npfloat) : result (list Q) :=
  match X with
  | [] => Ok []
  | x :: X' =>
      match is_finite x with
      | Some q => rbind (check_array X') (fun qs => Ok (q :: qs))
      | None => Raise (ValueError "Input X contains NaN or infinity")
      end
  end.

(** [tree.predict(X)] for every tree of the forest. *)
Definition tree_predictions (m : RandomForestRegressor) (x : list Q)
  : list Q :=
  map (fun tree => tree x) (estimators_ m).

(** [model.predict(X)]: the average of the trees' predictions. *)
Definition rf_predict (m : RandomForestRegressor) (x : list Q) : Q :=
  np_mean (tree_predictions m x).

(** The model artifact bundle, restricted to the entries [predict.py]
    computes with. *)
Record artifacts : Type := {
  model : RandomForestRegressor;
  scaler : StandardScaler;
  label_encoders : gmap string LabelEncoder;
  feature_columns : list string
}.

(** The shape of the bundle [train_model] writes: the ten feature
    columns of [preprocess_features], one fitted encoder per categorical
    column, and a scaler fitted on ten features (scikit-learn never
    stores a zero scale). *)
Definition trained_shape (art : artifacts) : bool :=
  bool_decide (feature_columns art = Train.feature_cols)
  && forallb (fun c => bool_decide (is_Some (label_encoders art !! c)))
             Train.categorical_cols
  && Nat.eqb (length (mean_ (scaler art))) (length Train.feature_cols)
  && Nat.eqb (length (scale_ (scaler art))) (length Train.feature_cols)
  && forallb (fun s => negb (Qeq_bool s 0)) (scale_ (scaler art)).

(** The predictor object. *)
Record DeliveryTimePredictor : Type := {
  model_path : string;
  model_artifacts : option artifacts
}.

(** *** Output and exceptions

    A computation of the predictor returns the lines it printed and
    either a value or the exception it raised. *)

Definition io (A : Type) : Type := (list string * result A)%type.

Definition ret {A} (a : A) : io A := ([], Ok a).
Definition raise {A} (e : exn) : io A := ([], Raise e).
Definition print (line : string) : io unit := ([line], Ok tt).
Definition lift {A} (r : result A) : io A := ([], r).

Definition bind {A B} (c : io A) (k : A -> io B) : io B :=
  match c with
  | (out, Ok a) => let '(out', r) := k a in (app out out', r)
  | (out, Raise e) => (out, Raise e)
  end.

Notation "x <- c ;; k" := (bind c (fun x => k))
  (at level 100, c at next level, right associativity).
Notation "c ;;; k" := (bind c (fun _ => k))
  (at level 100, right associativity).

(** [str(e)]. *)
Definition str_exn (e : exn) : string :=
  match e with
  | ValueError msg => msg
  | KeyError key => "'" ++ key ++ "'"
  | TypeError msg => msg
  | AttributeError msg => msg
  | ZeroDivisionError => "float division by zero"
  end.

(** *** load_model *)

(** The outcome of [joblib.load(self.model_path)]. *)
Inductive load_outcome : Type :=
| Loaded (a : artifacts)
| FileNotFoundError
| OtherError (msg : string).

(** [load_model]: the new predictor state and what was printed (the
    leading pictograph of each line is left out). *)
Definition load_model (self : DeliveryTimePredictor) (o : load_outcome)
  : list string * DeliveryTimePredictor :=
  match o with
  | Loaded a =>
      (["Model loaded successfully from " ++ model_path self],
       {| model_path := model_path self; model_artifacts := Some a |})
  | FileNotFoundError =>
      (["Model file not found: " ++ model_path self;
        "Please run train_model.py first to create the model."],
       {| model_path := model_path self; model_artifacts := None |})
  | OtherError msg =>
      (["Error loading model: " ++ msg],
       {| model_path := model_path self; model_artifacts := None |})
  end.

(** [__init__]. *)
Definition init (path : string) (o : load_outcome)
  : list string * DeliveryTimePredictor :=
  load_model {| model_path := path; model_artifacts := None |} o.

(** *** preprocess_input *)

Definition categorical_cols : list string :=
  ["vehicle_type"; "order_type"; "weather_condition"; "time_of_day";
   "day_of_week"].

Definition unseen_warning (col : string) : string :=
  "Warning: Unseen category in " ++ col ++ ". Using default encoding.".

(** [df[col]] and [d[key]]. *)
Definition getitem {V} (d : gmap string V) (key : string) : result V :=
  match d !! key with
  | Some v => Ok v
  | None => Raise (KeyError key)
  end.

(** One iteration of the encoding loop. *)
Definition encode_col (encoders : gmap string LabelEncoder) (col : string)
           (df : gmap string value) : io (gmap string value) :=
  match df !! col with
  | None => ret df
  | Some v =>
      match rbind (getitem encoders col) (fun le => le_transform le v) with
      | Ok code => ret (<[col ++ "_encoded" := VNum (inject_Z code)]> df)
      | Raise (ValueError _) =>
          print (unseen_warning col) ;;;
          ret (<[col ++ "_encoded" := VNum 0]> df)
      | Raise e => raise e
      end
  end.

Fixpoint encode_categoricals (encoders : gmap string LabelEncoder)
         (cols : list string) (df : gmap string value)
  : io (gmap string value) :=
  match cols with
  | [] => ret df
  | col :: cols' =>
      df1 <- encode_col encoders col df ;;
      encode_categoricals encoders cols' df1
  end.

(** [x ** 2] and [x * y] on cells. *)
Definition pow2 (v : value) : result value :=
  match v with
  | VNum q => Ok (VNum (q * q))
  | VStr _ => Raise (TypeError "unsupported operand type(s) for ** or pow(): 'str' and 'int'")
  end.

Definition mul (v w : value) : result value :=
  match v, w with
  | VNum a, VNum b => Ok (VNum (a * b))
  | _, _ => Raise (TypeError "can't multiply sequence by non-int of type 'float'")
  end.

Definition feature_engineering (df : gmap string value)
  : result (gmap string value) :=
  rbind (getitem df "distance_km") (fun d =>
  rbind (pow2 d) (fun d2 =>
  let df := <["distance_squared" := d2]> df in
  rbind (getitem df "delivery_person_rating") (fun r =>
  rbind (getitem df "distance_km") (fun d =>
  rbind (mul r d) (fun rd =>
  Ok (<["rating_distance_interaction" := rd]> df)))))).

(** The loop that default-fills the feature columns still missing. *)
Fixpoint fill_missing (feature_cols : list string) (df : gmap string value)
  : gmap string value :=
  match feature_cols with
  | [] => df
  | col :: cols' =>
      fill_missing cols'
        (match df !! col with
         | Some _ => df
         | None => <[col := VNum 0]> df
         end)
  end.

(** [df[feature_cols]]. *)
Fixpoint select (df : gmap string value) (feature_cols : list string)
  : result (list value) :=
  match feature_cols with
  | [] => Ok []
  | col :: cols' =>
      rbind (getitem df col) (fun v =>
      rbind (select df cols') (fun vs => Ok (v :: vs)))
  end.

(** The frame [df] of [preprocess_input] as it stands just before the
    final [return df[feature_cols]]. *)
Definition prepare_frame (art : artifacts) (d : order_input)
  : io (gmap string value) :=
  let df := to_frame d in
  df <- encode_categoricals (label_encoders art) categorical_cols df ;;
  df <- lift (feature_engineering df) ;;
  let feature_cols := feature_columns art in
  ret (fill_missing feature_cols df).

Definition preprocess_input (self : DeliveryTimePredictor)
           (input : input_data) : io (list value) :=
  match model_artifacts self with
  | None => raise (ValueError "Model not loaded. Cannot preprocess input.")
  | Some art =>
      match input with
      | InOther =>
          raise (ValueError "Input data must be a dictionary or pandas DataFrame")
      | InDict d =>
          df <- prepare_frame art d ;;
          lift (select df (feature_columns art))
      end
  end.

(** *** predict *)

Record prediction : Type := {
  estimated_time : Q;
  confidence : npfloat;
  prediction_std : Q
}.

(** [except Exception as e: raise ValueError(f"Prediction failed: {str(e)}")]. *)
Definition wrap_failure {A} (c : io A) : io A :=
  match c with
  | (out, Raise e) =>
      (out, Raise (ValueError ("Prediction failed: " ++ str_exn e)))
  | ok => ok
  end.

Definition predict (self : DeliveryTimePredictor) (input : input_data)
  : io prediction :=
  match model_artifacts self with
  | None => raise (ValueError "Model not loaded. Cannot make predictions.")
  | Some art =>
      wrap_failure
        (X <- preprocess_input self input ;;
         X_scaled <- lift (scaler_transform (scaler art) X) ;;
         x <- lift (check_array X_scaled) ;;
         let prediction := rf_predict (model art) x in
         let tree_predictions := tree_predictions (model art) x in
         let prediction_std := np_std tree_predictions in
         let confidence :=
           np_maximum (6 # 10) (np_rsub 1 (np_div prediction_std prediction)) in
         ret {| estimated_time := prediction;
                confidence := confidence;
                prediction_std := prediction_std |})
  end.

(** *** predict_with_breakdown *)

Record breakdown : Type := {
  b_preparation_time : Z;
  b_travel_time : Z;
  b_weather_delay : Z;
  b_traffic_and_other : Z
}.

Record factors : Type := {
  f_delivery_person_rating : Q;
  f_vehicle_type : string;
  f_distance_km : Q;
  f_weather_condition : string
}.

Record breakdown_result : Type := {
  base_prediction : prediction;
  result_breakdown : breakdown;
  result_factors : factors
}.

Definition weather_delays : gmap string Z :=
  list_to_map [("clear", 0%Z); ("cloudy", 1%Z); ("light_rain", 3%Z);
               ("heavy_rain", 8%Z); ("storm", 15%Z)].

(** [dict.get(key, default)] on the input mapping and on a table. *)
Definition params_get {A} (field : option A) (dflt : A) : A :=
  default dflt field.

Definition dict_get {V} (d : gmap string V) (key : string) (dflt : V) : V :=
  default dflt (d !! key).

Definition base_speed_of (vehicle : string) : Q :=
  if String.eqb vehicle "bike" then 35 # 10 else 5.

Definition efficiency_of (rating : Q) : Q :=
  (rating / 5) * (8 # 10) + (2 # 10).

(** The local variables of [predict_with_breakdown] before the result
    is assembled. *)
Record terms : Type := {
  prep_time : Q;
  distance : Q;
  rating : Q;
  vehicle : string;
  weather : string;
  travel_time : Q;
  weather_delay : Z;
  remaining_time : Q
}.

Definition breakdown_terms (params : order_input) (estimated_time : Q)
  : result terms :=
  let prep_time := params_get (in_preparation_time params) 15 in
  let distance := params_get (in_distance_km params) 3 in
  let rating := params_get (in_delivery_person_rating params) 4 in
  let vehicle := params_get (in_vehicle_type params) "bike" in
  let weather := params_get (in_weather_condition params) "clear" in
  let base_speed := base_speed_of vehicle in
  let efficiency := efficiency_of rating in
  match Num.py_div (distance * base_speed) efficiency with
  | None => Raise ZeroDivisionError
  | Some travel_time =>
      let weather_delay := dict_get weather_delays weather 0%Z in
      let remaining_time :=
        Num.py_max 0 (estimated_time - prep_time - travel_time
                      - inject_Z weather_delay) in
      Ok {| prep_time := prep_time;
            distance := distance;
            rating := rating;
            vehicle := vehicle;
            weather := weather;
            travel_time := travel_time;
            weather_delay := weather_delay;
            remaining_time := remaining_time |}
  end.

Definition predict_with_breakdown (self : DeliveryTimePredictor)
           (input : input_data) : io breakdown_result :=
  base_prediction <- predict self input ;;
  match input with
  | InOther => raise (AttributeError "object has no attribute 'iloc'")
  | InDict params =>
      t <- lift (breakdown_terms params (estimated_time base_prediction)) ;;
      ret {| base_prediction := base_prediction;
             result_breakdown :=
               {| b_preparation_time := Num.py_round (prep_time t);
                  b_travel_time := Num.py_round (travel_time t);
                  b_weather_delay := Num.py_round (inject_Z (weather_delay t));
                  b_traffic_and_other := Num.py_round (remaining_time t) |};
             result_factors :=
               {| f_delivery_person_rating := rating t;
                  f_vehicle_type := vehicle t;
                  f_distance_km := distance t;
                  f_weather_condition := weather t |} |}
  end.

End Predict.

(** ** A concrete bundle and the sample orders of the scripts *)

Module Example.
Import Np Predict.

(** Encoders as [LabelEncoder.fit] leaves them on the generated data:
    the classes of each column in sorted order. *)
Definition encoders : gmap string LabelEncoder :=
  list_to_map
    [("vehicle_type", {| classes_ := ["bicycle"; "bike"] |});
     ("order_type", {| classes_ := ["delicate"; "normal"] |});
     ("weather_condition",
      {| classes_ := ["clear"; "cloudy"; "heavy_rain"; "light_rain"; "storm"] |});
     ("time_of_day",
      {| classes_ := ["afternoon"; "evening"; "morning"; "night"] |});
     ("day_of_week", {| classes_ := ["weekday"; "weekend"] |})].

Definition example_scaler : StandardScaler :=
  {| mean_ := [3; 3; 15; 7 # 10; 8 # 10; 1; 3 # 2; 3 # 10; 18; 9];
     scale_ := [1; 3; 5; 1 # 2; 1 # 2; 1; 1; 1 # 2; 30; 10] |}.

(** Three small trees splitting on the scaled distance. *)
Definition stump (threshold low high : Q) : estimator :=
  fun x => if Qle_bool (nth 1 x 0) threshold then low else high.

Definition example_model : RandomForestRegressor :=
  {| first_estimator := stump 0 24 40;
     more_estimators := [stump (1 # 2) 26 44; stump (-1 # 2) 18 28] |}.

Definition example_artifacts : artifacts :=
  {| model := example_model;
     scaler := example_scaler;
     label_encoders := encoders;
     feature_columns := Train.feature_cols |}.

Definition loaded : DeliveryTimePredictor :=
  snd (init "delivery_time_model.pkl" (Loaded example_artifacts)).

Definition not_loaded : DeliveryTimePredictor :=
  snd (init "delivery_time_model.pkl" FileNotFoundError).

(** The first sample order of [predict.py] (also the spec's example). *)
Definition order1 : order_input :=
  {| in_delivery_person_rating := Some (42 # 10);
     in_distance_km := Some (35 # 10);
     in_preparation_time := Some 15;
     in_vehicle_type := Some "bike";
     in_order_type := Some "normal";
     in_weather_condition := Some "clear";
     in_time_of_day := Some "evening";
     in_day_of_week := Some "weekday" |}.

(** The second sample order of [predict.py]. *)
Definition order2 : order_input :=
  {| in_delivery_person_rating := Some (38 # 10);
     in_distance_km := Some (72 # 10);
     in_preparation_time := Some 25;
     in_vehicle_type := Some "bicycle";
     in_order_type := Some "delicate";
     in_weather_condition := Some "light_rain";
     in_time_of_day := Some "afternoon";
     in_day_of_week := Some "weekend" |}.

(** The first sample order with its distance left out. *)
Definition order1_without_distance : order_input :=
  {| in_delivery_person_rating := Some (42 # 10);
     in_distance_km := None;
     in_preparation_time := Some 15;
     in_vehicle_type := Some "bike";
     in_order_type := Some "normal";
     in_weather_condition := Some "clear";
     in_time_of_day := Some "evening";
     in_day_of_week := Some "weekday" |}.

(** The first sample order with its rating left out. *)
Definition order1_without_rating : order_input :=
  {| in_delivery_person_rating := None;
     in_distance_km := Some (35 # 10);
     in_preparation_time := Some 15;
     in_vehicle_type := Some "bike";
     in_order_type := Some "normal";
     in_weather_condition := Some "clear";
     in_time_of_day := Some "evening";
     in_day_of_week := Some "weekday" |}.

(** An order that has a distance and a rating and leaves out every other
    field. *)
Definition sparse_order : order_input :=
  {| in_delivery_person_rating := Some (42 # 10);
     in_distance_km := Some (35 # 10);
     in_preparation_time := None;
     in_vehicle_type := None;
     in_order_type := None;
     in_weather_condition := None;
     in_time_of_day := None;
     in_day_of_week := None |}.

(** An order that names a vehicle and a weather no encoder has seen. *)
Definition drone_order : order_input :=
  {| in_delivery_person_rating := Some (42 # 10);
     in_distance_km := Some (35 # 10);
     in_preparation_time := Some 15;
     in_vehicle_type := Some "drone";
     in_order_type := Some "normal";
     in_weather_condition := Some "fog";
     in_time_of_day := Some "evening";
     in_day_of_week := Some "weekday" |}.




(** The first sample order as a row of the training frame. *)
Definition row1 : Train.order :=
  Train.mk_order (42 # 10) (35 # 10) 15 "bike" "normal" "clear" "evening"
                 "weekday".

(** A stand-in for numpy's generator: a linear congruential state, each
    sampler reading its draw off the state. *)
Definition lcg (s : Z) : Z := ((1103515245 * s + 12345) mod 2147483648)%Z.

Definition unit_draw (s : Z) : Q := inject_Z (s mod 1000) / 1000.

Definition pick (options : list string) (s : Z) : string :=
  nth (Z.to_nat (s mod Z.of_nat (length options))) options "".

#[export] Instance lcg_random : Train.RandomState Z := {|
  Train.seed := fun n => n;
  Train.uniform := fun lo hi s => (lo + (hi - lo) * unit_draw s, lcg s);
  Train.exponential := fun scale s => (scale * unit_draw s * 3, lcg s);
  Train.normal := fun loc scale s =>
    (loc + scale * (unit_draw s * 6 - 3), lcg s);
  Train.choice := fun options _ s => (pick options s, lcg s)
|}.

End Example.

(** ** The formula of the specification, section 4.2 *)

Module Spec.
Import Train.

Definition speed (r : order) : Q :=
  if String.eqb (vehicle_type r) "bike" then 35 # 10 else 5.

Definition efficiency (r : order) : Q :=
  (delivery_person_rating r / 5) * (8 # 10) + (2 # 10).

Definition travel (r : order) : Q := distance_km r * speed r / efficiency r.

Definition weather_delay (weather : string) : Q :=
  if String.eqb weather "clear" then 0
  else if String.eqb weather "cloudy" then 1
  else if String.eqb weather "light_rain" then 3
  else if String.eqb weather "heavy_rain" then 8
  else if String.eqb weather "storm" then 15
  else 0.

Definition order_delay (r : order) : Q :=
  if String.eqb (order_type r) "delicate" then 3 else 0.

Definition time_delay (r : order) : Q :=
  if String.eqb (time_of_day r) "morning" then 2
  else if String.eqb (time_of_day r) "afternoon" then 1
  else if String.eqb (time_of_day r) "evening" then 4
  else 0.

Definition weekend_factor (r : order) : Q :=
  if String.eqb (day_of_week r) "weekend" then 9 # 10 else 1.

Definition total (r : order) (gaussian_noise : Q) : Q :=
  (preparation_time r + travel r + weather_delay (weather_condition r)
   + order_delay r + time_delay r) * weekend_factor r + gaussian_noise.


(** The rating range of an Order Record (section 3). *)
Definition valid_rating (r : order) : Prop :=
  1 <= delivery_person_rating r /\ delivery_person_rating r <= 5.

End Spec.

(** ** train_model.py: features, encoders and the bundle *)

Module Features.
Import Np Predict.

(** [np.unique] on a column of strings: its distinct values in increasing
    order (strings compare by code point). *)
Fixpoint insert_sorted (s : string) (classes : list string) : list string :=
  match classes with
  | [] => [s]
  | c :: rest =>
      if String.eqb s c then classes
      else if String.leb s c then s :: classes
      else c :: insert_sorted s rest
  end.

Definition np_unique (column : list string) : list string :=
  fold_right insert_sorted [] column.

(** [LabelEncoder().fit(column)]. *)
Definition fit (column : list string) : LabelEncoder :=
  {| classes_ := np_unique column |}.

(** The inverse index [np.unique] returns for a value: its position among
    the sorted classes, that is the number of classes below it. *)
Definition rank (classes : list string) (s : string) : nat :=
  length (List.filter (fun c => String.ltb c s) classes).

(** [le.fit_transform(column)]: the fitted encoder and the column of
    codes. *)
Definition fit_transform (column : list string) : LabelEncoder * list Q :=
  let le := fit column in
  (le, map (fun s => inject_Z (Z.of_nat (rank (classes_ le) s))) column).

(** [df[feature_cols]] for a frame of [n] rows given by its columns: the
    rows, each in the order of the columns. *)
Definition frame_rows (n : nat) (columns : list (list Q)) : list (list Q) :=
  map (fun i => map (fun col => nth i col 0) columns) (seq 0 n).

(** [preprocess_features(df)]: the feature matrix and the fitted encoders.
    The loop over the literal [categorical_cols] is written out, one
    iteration per column, in the order of the list. *)
Definition preprocess_features (df : list Train.order)
  : list (list Q) * gmap string LabelEncoder :=
  let label_encoders : gmap string LabelEncoder := ∅ in
  let '(le, vehicle_type_encoded) :=
    fit_transform (map Train.vehicle_type df) in
  let label_encoders := <["vehicle_type" := le]> label_encoders in
  let '(le, order_type_encoded) :=
    fit_transform (map Train.order_type df) in
  let label_encoders := <["order_type" := le]> label_encoders in
  let '(le, weather_condition_encoded) :=
    fit_transform (map Train.weather_condition df) in
  let label_encoders := <["weather_condition" := le]> label_encoders in
  let '(le, time_of_day_encoded) :=
    fit_transform (map Train.time_of_day df) in
  let label_encoders := <["time_of_day" := le]> label_encoders in
  let '(le, day_of_week_encoded) :=
    fit_transform (map Train.day_of_week df) in
  let label_encoders := <["day_of_week" := le]> label_encoders in
  let distance_squared :=
    map (fun r => Train.distance_km r * Train.distance_km r) df in
  let rating_distance_interaction :=
    map (fun r => Train.delivery_person_rating r * Train.distance_km r) df in
  (frame_rows (length df)
     [map Train.delivery_person_rating df; map Train.distance_km df;
      map Train.preparation_time df;
      vehicle_type_encoded; order_type_encoded; weather_condition_encoded;
      time_of_day_encoded; day_of_week_encoded;
      distance_squared; rating_distance_interaction],
   label_encoders).

(** A row of the frame as the mapping [predict] is handed
    ([sample_data.iloc[0].to_dict()]). *)
Definition to_dict (r : Train.order) : order_input :=
  {| in_delivery_person_rating := Some (Train.delivery_person_rating r);
     in_distance_km := Some (Train.distance_km r);
     in_preparation_time := Some (Train.preparation_time r);
     in_vehicle_type := Some (Train.vehicle_type r);
     in_order_type := Some (Train.order_type r);
     in_weather_condition := Some (Train.weather_condition r);
     in_time_of_day := Some (Train.time_of_day r);
     in_day_of_week := Some (Train.day_of_week r) |}.

(** [StandardScaler().fit(X)]: the mean and the standard deviation of
    each column, a constant column getting the scale 1; no samples is an
    error. *)
Definition scaler_fit (X : list (list Q)) : result StandardScaler :=
  match X with
  | [] => Raise (ValueError "Found array with 0 sample(s) while a minimum of 1 is required by StandardScaler.")
  | row :: _ =>
      let columns :=
        map (fun j => map (fun x => nth j x 0) X) (seq 0 (length row)) in
      Ok {| mean_ := map np_mean columns;
            scale_ := map (fun col =>
                             let s := np_std col in
                             if Qeq_bool s 0 then 1 else s) columns |}
  end.

(** The number of samples [train_model] asks the generator for. *)
Definition n_training_samples : nat := Z.to_nat 50000.

Section TrainModel.
Context {rng : Type} `{Train.RandomState rng}.

(** The two steps of scikit-learn that are taken as given: the seeded
    [train_test_split(X, y, test_size=0.2, random_state=42)], returning
    [(X_train, X_test, y_train, y_test)], and the fit of the forest. *)
Variable train_test_split :
  list (list Q) -> list Q ->
  list (list Q) * list (list Q) * list Q * list Q.
Variable fit_forest : list (list npfloat) -> list Q -> RandomForestRegressor.

(** [train_model()], up to the four entries of the bundle that
    [predict.py] computes with (the metrics, the prints and the files
    written are left out). *)
Definition train_model (s0 : rng) : result artifacts :=
  let '(df, s) := Train.generate_sample_data n_training_samples s0 in
  rbind (fst (Train.calculate_delivery_time df s)) (fun y =>
  let '(X, label_encoders) := preprocess_features df in
  let '(X_train, X_test, y_train, y_test) := train_test_split X y in
  rbind (scaler_fit X_train) (fun scaler =>
  let X_train_scaled :=
    map (fun x => standardize x (mean_ scaler) (scale_ scaler)) X_train in
  let model := fit_forest X_train_scaled y_train in
  Ok {| model := model;
        scaler := scaler;
        label_encoders := label_encoders;
        feature_columns := Train.feature_cols |})).

End TrainModel.

(** The ranking of the features by importance that [train_model] stores:
    [pd.DataFrame({'feature': ..., 'importance': ...})
       .sort_values('importance', ascending=False).to_dict('records')],
    for the sorting function of pandas. *)
Definition rank_features
           (sort_values : list (string * Q) -> list (string * Q))
           (columns : list string) (feature_importances_ : list Q)
  : list (string * Q) :=
  sort_values (combine columns feature_importances_).

End Features.

(** ** predict.py: get_model_info *)

Module Info.
Import Predict.

(** The entries of the bundle that only [get_model_info] reads; an entry
    the bundle does not have is [None]. *)
Record metadata : Type := {
  training_date : option string;
  training_samples : option nat;
  metrics : option (gmap string Q);
  feature_importance : option (list (string * Q))
}.

(** The mapping returned for a loaded predictor. *)
Record model_info : Type := {
  model_loaded : bool;
  info_training_date : option string;
  info_training_samples : option nat;
  info_metrics : option (gmap string Q);
  info_features : list string;
  info_feature_importance : list (string * Q)
}.

(** [get_model_info]: [inl] is the mapping [{"error": ...}]. *)
Definition get_model_info (self : DeliveryTimePredictor) (meta : metadata)
  : string + model_info :=
  match model_artifacts self with
  | None => inl "Model not loaded"
  | Some art =>
      inr {| model_loaded := true;
             info_training_date := training_date meta;
             info_training_samples := training_samples meta;
             info_metrics := metrics meta;
             info_features := feature_columns art;
             info_feature_importance :=
               take 5 (default [] (feature_importance meta)) |}
  end.

End Info.

(** ** The feature vector in closed form *)

Module Layout.
Import Predict.

(** The cell of an encoded column: the position of the value among the
    encoder's classes, 0 when the field is absent or the value (or the
    encoder) unknown. *)
Definition code_of (encoders : gmap string LabelEncoder) (col : string)
           (field : option string) : Q :=
  match field with
  | None => 0
  | Some s =>
      match encoders !! col with
      | None => 0
      | Some le =>
          match index_of s (classes_ le) with
          | Some i => inject_Z (Z.of_nat i)
          | None => 0
          end
      end
  end.

(** The ten features of an input that has a distance and a rating, in
    the order of [Train.feature_cols]. *)
Definition features (encoders : gmap string LabelEncoder) (d : order_input)
           (dist rat : Q) : list Q :=
  [rat; dist; default 0 (in_preparation_time d);
   code_of encoders "vehicle_type" (in_vehicle_type d);
   code_of encoders "order_type" (in_order_type d);
   code_of encoders "weather_condition" (in_weather_condition d);
   code_of encoders "time_of_day" (in_time_of_day d);
   code_of encoders "day_of_week" (in_day_of_week d);
   dist * dist; rat * dist].

(** The fields of the input whose value the bundle's encoder does not
    know, in the order of [categorical_cols]. *)
Definition unseen_fields (encoders : gmap string LabelEncoder)
           (d : order_input) : list string :=
  List.filter
    (fun col =>
       match to_frame d !! col, encoders !! col with
       | Some (VStr s), Some le =>
           match index_of s (classes_ le) with
           | Some _ => false
           | None => true
           end
       | _, _ => false
       end)
    categorical_cols.

End Layout.

(** ** Training on the stand-in generator *)

Module TrainingExample.
Import Np Predict.

(** A split that keeps every row for training. *)
Definition keep_all (X : list (list Q)) (y : list Q)
  : list (list Q) * list (list Q) * list Q * list Q :=
  (X, [], y, []).

(** A forest of one tree that predicts the mean label. *)
Definition mean_forest (X : list (list npfloat)) (y : list Q)
  : RandomForestRegressor :=
  {| first_estimator := fun _ => np_mean y; more_estimators := [] |}.

(** A small frame: the first sample order twice and a third order. *)
Definition small_frame : list Train.order :=
  [Example.row1;
   Train.mk_order (38 # 10) (72 # 10) 25 "bicycle" "delicate" "light_rain"
                  "afternoon" "weekend";
   Example.row1].

(** A frame with a row whose rating makes the efficiency vanish. *)
Definition bad_frame : list Train.order :=
  [Example.row1;
   Train.mk_order (- (5 # 4)) 3 15 "bike" "normal" "clear" "night" "weekday";
   Example.row1].

(** A comparison of feature importances, the larger first, and a sort by
    it that stands in for [sort_values(..., ascending=False)]. *)
Definition more_important (a b : string * Q) : Prop :=
  Is_true (Qle_bool (snd b) (snd a)).

#[export] Instance more_important_dec : RelDecision more_important :=
  fun a b => Is_true_dec (Qle_bool (snd b) (snd a)).

Definition sort_by_importance (l : list (string * Q)) : list (string * Q) :=
  merge_sort more_important l.

(** Importances for the ten feature columns. *)
Definition importances : list Q :=
  [5 # 100; 40 # 100; 12 # 100; 3 # 100; 2 # 100; 6 # 100; 4 # 100;
   1 # 100; 20 # 100; 7 # 100].

Definition example_metadata : Info.metadata :=
  {| Info.training_date := Some "2024-01-01T00:00:00";
     Info.training_samples := Some (Z.to_nat 40000);
     Info.metrics := None;
     Info.feature_importance :=
       Some (Features.rank_features sort_by_importance Train.feature_cols
                                    importances) |}.

(** The first sample order with the rating at which the efficiency of
    the breakdown vanishes. *)
Definition stalled_order : order_input :=
  {| in_delivery_person_rating := Some (- (5 # 4));
     in_distance_km := Some (35 # 10);
     in_preparation_time := Some 15;
     in_vehicle_type := Some "bike";
     in_order_type := Some "normal";
     in_weather_condition := Some "clear";
     in_time_of_day := Some "evening";
     in_day_of_week := Some "weekday" |}.


(** The sample bundle without its encoder for the vehicle. *)
Definition no_vehicle_encoder_artifacts : artifacts :=
  {| model := Example.example_model;
     scaler := Example.example_scaler;
     label_encoders := delete "vehicle_type" Example.encoders;
     feature_columns := Train.feature_cols |}.

Definition loaded_with (art : artifacts) : DeliveryTimePredictor :=
  {| model_path := "delivery_time_model.pkl"; model_artifacts := Some art |}.

End TrainingExample.

(** * Properties *)

(** ** Numeric primitives *)

Lemma Qlt_bool_iff (a b : Q) : Num.Qlt_bool a b = true <-> a < b.
Proof.
  unfold Num.Qlt_bool. rewrite negb_true_iff. split.
  - intros E. apply Qnot_le_lt. intros L.
    apply Qle_bool_iff in L. congruence.
  - intros L. destruct (Qle_bool b a) eqn:E; [|reflexivity].
    apply Qle_bool_iff in E. lra.
Qed.

Lemma Qlt_bool_false (a b : Q) : Num.Qlt_bool a b = false <-> b <= a.
Proof.
  unfold Num.Qlt_bool. rewrite negb_false_iff. apply Qle_bool_iff.
Qed.

Lemma py_max_lower_r (a b : Q) : b <= Num.py_max a b.
Proof.
  unfold Num.py_max. destruct (Num.Qlt_bool a b) eqn:E.
  - lra.
  - apply Qlt_bool_false in E. exact E.
Qed.

Lemma py_max_lower_l (a b : Q) : a <= Num.py_max a b.
Proof.
  unfold Num.py_max. destruct (Num.Qlt_bool a b) eqn:E.
  - apply Qlt_bool_iff in E. lra.
  - lra.
Qed.


Lemma np_maximum_lower_r (a b : Q) : b <= Num.np_maximum a b.
Proof. apply py_max_lower_r. Qed.

Lemma np_maximum_lower_l (a b : Q) : a <= Num.np_maximum a b.
Proof. apply py_max_lower_l. Qed.

Lemma np_abs_nonneg (a : Q) : 0 <= Num.np_abs a.
Proof. apply Qabs_nonneg. Qed.

Lemma py_div_nonzero (a b : Q) : ~ b == 0 -> Num.py_div a b = Some (a / b).
Proof.
  intros Hb. unfold Num.py_div. destruct (Qeq_bool b 0) eqn:E.
  - apply Qeq_bool_iff in E. contradiction.
  - reflexivity.
Qed.

Lemma py_div_zero (a b : Q) : b == 0 -> Num.py_div a b = None.
Proof.
  intros Hb. unfold Num.py_div. apply Qeq_bool_iff in Hb. now rewrite Hb.
Qed.

Lemma py_round_cases (x : Q) :
  (x - inject_Z (Qfloor x) < 1 # 2 /\ Num.py_round x = Qfloor x)
  \/ (1 # 2 < x - inject_Z (Qfloor x)
      /\ Num.py_round x = (Qfloor x + 1)%Z)
  \/ (x - inject_Z (Qfloor x) == 1 # 2
      /\ Num.py_round x
         = (if Z.even (Qfloor x) then Qfloor x else Qfloor x + 1)%Z).
Proof.
  unfold Num.py_round.
  destruct (Num.Qlt_bool (x - inject_Z (Qfloor x)) (1 # 2)) eqn:E1.
  - left. apply Qlt_bool_iff in E1. auto.
  - apply Qlt_bool_false in E1.
    destruct (Num.Qlt_bool (1 # 2) (x - inject_Z (Qfloor x))) eqn:E2.
    + right; left. apply Qlt_bool_iff in E2. auto.
    + right; right. apply Qlt_bool_false in E2. split; [lra | reflexivity].
Qed.

(** [round] returns a nearest integer. *)
Lemma py_round_nearest (x : Q) :
  Qabs (inject_Z (Num.py_round x) - x) <= 1 # 2.
Proof.
  pose proof (Qfloor_le x) as Hlo.
  pose proof (Qlt_floor x) as Hhi.
  rewrite inject_Z_plus in Hhi. change (inject_Z 1) with 1 in Hhi.
  apply Qabs_Qle_condition.
  destruct (py_round_cases x) as [[Hr ->] | [[Hr ->] | [Hr ->]]].
  - lra.
  - rewrite inject_Z_plus. change (inject_Z 1) with 1. lra.
  - destruct (Z.even (Qfloor x));
      [| rewrite inject_Z_plus; change (inject_Z 1) with 1]; lra.
Qed.

(** Ties go to the even neighbour. *)
Lemma py_round_tie_even (x : Q) :
  x - inject_Z (Qfloor x) == 1 # 2 -> Z.even (Num.py_round x) = true.
Proof.
  intros Hr.
  destruct (py_round_cases x) as [[H1 _] | [[H1 _] | [_ ->]]]; try lra.
  destruct (Z.even (Qfloor x)) eqn:E; [exact E |].
  rewrite Z.even_add, E. reflexivity.
Qed.

Lemma py_round_inject_Z (z : Z) : Num.py_round (inject_Z z) = z.
Proof.
  destruct (py_round_cases (inject_Z z)) as [[_ ->] | [[Hr _] | [Hr _]]];
    rewrite Qfloor_Z in *; [reflexivity | lra | lra].
Qed.


(** ** The ground-truth time function ([calculate_delivery_time]) *)




Lemma efficiency_positive (rating : Q) :
  0 <= rating -> 0 < (rating / 5) * (8 # 10) + (2 # 10).
Proof.
  intros Hr. unfold Qdiv. change (/ 5) with (1 # 5). lra.
Qed.

(** The efficiency vanishes at exactly one rating, [-5/4]. *)
Lemma efficiency_zero_iff (rating : Q) :
  (rating / 5) * (8 # 10) + (2 # 10) == 0 <-> rating == - (5 # 4).
Proof.
  unfold Qdiv. change (/ 5) with (1 # 5). split; intros; lra.
Qed.


(** At the rating [-5/4] the division by the efficiency raises. *)
Lemma delivery_time_of_row_zero_efficiency (row : Train.order) (noise : Q) :
  Train.delivery_person_rating row == - (5 # 4) ->
  Train.delivery_time_of_row row noise = Raise ZeroDivisionError.
Proof.
  intros Hr.
  unfold Train.delivery_time_of_row, Train.total_before_noise.
  rewrite py_div_zero; [reflexivity |].
  apply efficiency_zero_iff. exact Hr.
Qed.

Lemma total_before_noise_defined (row : Train.order) :
  Spec.valid_rating row -> exists total, Train.total_before_noise row = Ok total.
Proof.
  intros [Hlo Hhi]. unfold Train.total_before_noise.
  rewrite py_div_nonzero; [eexists; reflexivity |].
  pose proof (efficiency_positive (Train.delivery_person_rating row)) as Hp.
  lra.
Qed.


(** Over a whole frame of Order Records the loop returns one label per
    row, each at least 10. *)
Lemma calculate_delivery_time_floor {rng : Type} `{Train.RandomState rng}
      (df : list Train.order) (s : rng) :
  Forall Spec.valid_rating df ->
  exists ts, fst (Train.calculate_delivery_time df s) = Ok ts
             /\ length ts = length df
             /\ Forall (fun t => 10 <= t) ts.
Proof.
  intros Hdf. revert s.
  induction Hdf as [| row rest Hrow _ IH]; intros s.
  - exists []. repeat split; constructor.
  - cbn [Train.calculate_delivery_time].
    destruct (total_before_noise_defined row Hrow) as [total Htotal]. rewrite Htotal.
    destruct (Train.normal 0 2 s) as [noise s1].
    specialize (IH s1).
    destruct (Train.calculate_delivery_time rest s1) as [r s2].
    destruct IH as (ts & Hts & Hlen & Hall). cbn [fst] in Hts. subst r.
    cbn [fst rbind]. eexists. split; [reflexivity |]. split.
    + cbn [length]. now rewrite Hlen.
    + constructor; [apply py_max_lower_r | exact Hall].
Qed.

(** ** The synthetic data generator ([generate_sample_data]) *)

Lemma draws_length {rng A : Type} `{Train.RandomState rng}
      (draw : rng -> A * rng) (n : nat) (s : rng) :
  length (fst (Train.draws draw n s)) = n.
Proof.
  revert s. induction n as [| n IH]; intros s; [reflexivity |].
  cbn [Train.draws]. destruct (draw s) as [x s1].
  specialize (IH s1). destruct (Train.draws draw n s1) as [xs s2].
  cbn [fst length] in *. now rewrite IH.
Qed.

Lemma DataFrame_length (n : nat) (d : Train.columns) :
  length (Train.DataFrame n d) = n.
Proof. unfold Train.DataFrame. now rewrite List.length_map, List.length_seq. Qed.

(** C8.  For every sample count N, the generator returns N records, and
    every one of them has [distance_km >= 0] (absolute value applied) and
    [preparation_time >= 5] (floored at 5). *)
Theorem C8_generated_ranges {rng : Type} `{Train.RandomState rng}
        (n_samples : nat) (s0 : rng) :
  length (fst (Train.generate_sample_data n_samples s0)) = n_samples
  /\ Forall (fun r => 0 <= Train.distance_km r /\ 5 <= Train.preparation_time r)
            (fst (Train.generate_sample_data n_samples s0)).
Proof.
  unfold Train.generate_sample_data.
  repeat match goal with
         | |- context [Train.draws ?d ?n ?s] =>
             destruct (Train.draws d n s) as [? ?]
         end.
  cbn [fst]. split.
  - now rewrite !List.length_map, DataFrame_length.
  - rewrite !List.Forall_map. apply List.Forall_forall. intros record _.
    cbn [Train.set_preparation_time Train.set_distance_km
         Train.distance_km Train.preparation_time].
    split; [apply np_abs_nonneg | apply np_maximum_lower_r].
Qed.

(** C9.  The generator reseeds numpy with the fixed seed 42 on entry, so
    two runs with the same sample count return identical record tables
    (and leave the generator in the same state), whatever state each run
    started from. *)
Theorem C9_generator_deterministic {rng : Type} `{Train.RandomState rng}
        (n_samples : nat) (s0 s1 : rng) :
  Train.generate_sample_data n_samples s0
  = Train.generate_sample_data n_samples s1.
Proof.
  unfold Train.generate_sample_data.
  (* the first statement replaces the incoming state by [seed 42] *)
  generalize (Train.seed 42). intros seeded. reflexivity.
Qed.

(** ** The output/exception monad of the predictor *)

Section IoLemmas.
Import Predict.
Context {A B : Type}.

Lemma bind_ok_inv (c : io A) (k : A -> io B) (out : list string) (b : B) :
  bind c k = (out, Ok b) ->
  exists out1 a out2,
    c = (out1, Ok a) /\ k a = (out2, Ok b) /\ out = app out1 out2.
Proof.
  unfold bind. destruct c as [out1 [a | e]]; [| discriminate].
  destruct (k a) as [out2 r] eqn:Hk. intros [= <- ->].
  exists out1, a, out2. auto.
Qed.

Lemma bind_raise (c : io A) (k : A -> io B) (out : list string) (e : exn) :
  c = (out, Raise e) -> bind c k = (out, Raise e).
Proof. intros ->. reflexivity. Qed.

Lemma bind_ok (c : io A) (k : A -> io B) (out : list string) (a : A) :
  c = (out, Ok a) -> bind c k = (app out (fst (k a)), snd (k a)).
Proof. intros ->. unfold bind. now destruct (k a). Qed.

Lemma bind_lift_ok (a : A) (k : A -> io B) : bind (lift (Ok a)) k = k a.
Proof. unfold bind, lift. now destruct (k a). Qed.

Lemma wrap_failure_ok_inv (c : io A) (out : list string) (a : A) :
  wrap_failure c = (out, Ok a) -> c = (out, Ok a).
Proof.
  unfold wrap_failure. destruct c as [o [a' | e]]; [auto | discriminate].
Qed.

Lemma lift_ok_inv (r : result A) (out : list string) (a : A) :
  lift r = (out, Ok a) -> r = Ok a /\ out = [].
Proof. unfold lift. intros [= <- ->]. auto. Qed.

End IoLemmas.

(** ** Loading, and predicting without a bundle *)

(** C2.  When no bundle is loaded -- the predictor never loaded one, or
    [load_model] failed because the file is missing or for any other
    reason -- [predict] raises the explicit "model not loaded" condition
    for every input: nothing is printed, the input is not looked at, and
    the exception is not a wrapped downstream one. *)
Theorem C2_predict_not_loaded (self : Predict.DeliveryTimePredictor)
        (path msg : string) (input : Predict.input_data) :
  let not_loaded :=
    ([], Raise (ValueError "Model not loaded. Cannot make predictions.")) in
  Predict.predict
    {| Predict.model_path := path; Predict.model_artifacts := None |} input
  = not_loaded
  /\ Predict.predict
       (snd (Predict.load_model self Predict.FileNotFoundError)) input
     = not_loaded
  /\ Predict.predict
       (snd (Predict.load_model self (Predict.OtherError msg))) input
     = not_loaded.
Proof. repeat split. Qed.

(** A failed load leaves the predictor without a bundle, whatever it held
    before. *)
Lemma load_model_failure (self : Predict.DeliveryTimePredictor)
      (o : Predict.load_outcome) :
  (forall a, o <> Predict.Loaded a) ->
  Predict.model_artifacts (snd (Predict.load_model self o)) = None.
Proof.
  intros Hfail. destruct o as [a | | msg]; [| reflexivity | reflexivity].
  now destruct (Hfail a).
Qed.

(** Without a bundle [preprocess_input] and [predict_with_breakdown] fail
    fast as well. *)
Lemma not_loaded_everywhere (path : string) (input : Predict.input_data) :
  let self :=
    {| Predict.model_path := path; Predict.model_artifacts := None |} in
  Predict.preprocess_input self input
  = ([], Raise (ValueError "Model not loaded. Cannot preprocess input."))
  /\ Predict.predict_with_breakdown self input
     = ([], Raise (ValueError "Model not loaded. Cannot make predictions.")).
Proof. split; reflexivity. Qed.

(** ** The confidence score *)



Lemma np_sum_positive (xs : list Q) :
  xs <> [] -> Forall (fun x => 0 < x) xs -> 0 < Np.np_sum xs.
Proof.
  intros Hne Hall. induction Hall as [| x xs Hx Hxs IH]; [congruence |].
  cbn [Np.np_sum fold_right]. destruct xs as [| y ys].
  - cbn. lra.
  - assert (0 < Np.np_sum (y :: ys)) by (apply IH; discriminate).
    unfold Np.np_sum in *. lra.
Qed.

(** The average of positive predictions is positive. *)
Lemma np_mean_positive (xs : list Q) :
  xs <> [] -> Forall (fun x => 0 < x) xs -> 0 < Np.np_mean xs.
Proof.
  intros Hne Hall. unfold Np.np_mean.
  apply Qlt_shift_div_l.
  - change 0 with (inject_Z 0). rewrite <- Zlt_Qlt.
    destruct xs; [congruence | cbn [length]; lia].
  - rewrite Qmult_0_l. now apply np_sum_positive.
Qed.

(** What a successful [predict] has computed. *)
Lemma predict_ok_inv (self : Predict.DeliveryTimePredictor)
      (input : Predict.input_data) (out : list string)
      (r : Predict.prediction) :
  Predict.predict self input = (out, Ok r) ->
  exists art X X_scaled x,
    Predict.model_artifacts self = Some art
    /\ Predict.preprocess_input self input = (out, Ok X)
    /\ Predict.scaler_transform (Predict.scaler art) X = Ok X_scaled
    /\ Predict.check_array X_scaled = Ok x
    /\ Predict.estimated_time r = Predict.rf_predict (Predict.model art) x
    /\ Predict.prediction_std r
       = Np.np_std (Predict.tree_predictions (Predict.model art) x)
    /\ Predict.confidence r
       = Np.np_maximum (6 # 10)
           (Np.np_rsub 1 (Np.np_div (Predict.prediction_std r)
                                    (Predict.estimated_time r))).
Proof.
  unfold Predict.predict. destruct (Predict.model_artifacts self) as [art |];
    [| discriminate].
  intros Hp. apply wrap_failure_ok_inv in Hp.
  apply bind_ok_inv in Hp as (out1 & X & out2 & HX & Hp & ->).
  apply bind_ok_inv in Hp as (out3 & Xs & out4 & HXs & Hp & ->).
  apply lift_ok_inv in HXs as [HXs ->].
  apply bind_ok_inv in Hp as (out5 & x & out6 & Hx & Hp & ->).
  apply lift_ok_inv in Hx as [Hx ->].
  injection Hp as <- <-.
  exists art, X, Xs, x. cbn [Predict.estimated_time Predict.prediction_std
                            Predict.confidence].
  rewrite !app_nil_r. repeat split; auto.
Qed.


(** Without the positivity of the estimate only the floor is left: the
    score is NaN, [+inf], or a number that is at least 0.6. *)
Lemma confidence_floor (std estimate : Q) :
  match Np.np_maximum (6 # 10) (Np.np_rsub 1 (Np.np_div std estimate)) with
  | Np.Finite c => 6 # 10 <= c
  | Np.Inf negative => negative = false
  | Np.NaN => std == 0 /\ estimate == 0
  end.
Proof.
  unfold Np.np_div.
  destruct (Qeq_bool estimate 0) eqn:E.
  - apply Qeq_bool_iff in E. destruct (Qeq_bool std 0) eqn:E'.
    + apply Qeq_bool_iff in E'. cbn. auto.
    + cbn [Np.np_rsub Np.np_maximum].
      destruct (Num.Qlt_bool std 0); cbn; [reflexivity | lra].
  - cbn [Np.np_rsub Np.np_maximum]. apply np_maximum_lower_l.
Qed.


(** A forest whose trees all predict positive times has a positive point
    estimate, so the bound of C1 applies to it. *)
Lemma positive_forest_estimate (m : Predict.RandomForestRegressor)
      (x : list Q) :
  Forall (fun tree : Predict.estimator => 0 < tree x) (Predict.estimators_ m) ->
  0 < Predict.rf_predict m x.
Proof.
  intros Hall. unfold Predict.rf_predict, Predict.tree_predictions.
  apply np_mean_positive.
  - unfold Predict.estimators_. discriminate.
  - apply List.Forall_map. exact Hall.
Qed.

(** ** Column names *)

Lemma string_length_append (a b : string) :
  String.length (a ++ b) = (String.length a + String.length b)%nat.
Proof.
  induction a as [| c a IH]; simpl; [reflexivity | f_equal; exact IH].
Qed.

(** Two names with the same suffix appended are the same name. *)
Lemma append_suffix_inj (a b suffix : string) :
  a ++ suffix = b ++ suffix -> a = b.
Proof.
  revert b. induction a as [| c a IH]; intros [| c' b] Heq.
  - reflexivity.
  - apply (f_equal String.length) in Heq.
    rewrite !string_length_append in Heq. simpl in Heq. lia.
  - apply (f_equal String.length) in Heq.
    rewrite !string_length_append in Heq. simpl in Heq. lia.
  - change (String c (a ++ suffix) = String c' (b ++ suffix)) in Heq.
    injection Heq as -> Heq. f_equal. now apply IH.
Qed.

(** ** Frames: the input row *)

Lemma put_lookup (k k' : string) (v : option Predict.value)
      (df : gmap string Predict.value) :
  Predict.put k v df !! k'
  = if decide (k = k') then
      match v with Some x => Some x | None => df !! k' end
    else df !! k'.
Proof.
  unfold Predict.put. destruct v as [x |].
  - rewrite lookup_insert. reflexivity.
  - now case_decide.
Qed.

Lemma put_lookup_ne (k k' : string) (v : option Predict.value)
      (df : gmap string Predict.value) :
  k <> k' -> Predict.put k v df !! k' = df !! k'.
Proof. intros Hne. rewrite put_lookup. now case_decide. Qed.

Lemma put_lookup_eq (k : string) (v : option Predict.value)
      (df : gmap string Predict.value) :
  Predict.put k v df !! k = match v with Some x => Some x | None => df !! k end.
Proof. rewrite put_lookup. now case_decide. Qed.

Ltac frame_field :=
  unfold Predict.to_frame;
  repeat (rewrite put_lookup_ne by discriminate);
  rewrite put_lookup_eq;
  match goal with |- context [fmap _ ?f] => destruct f as [? |] end;
  [ reflexivity
  | cbn [fmap option_fmap option_map];
    repeat (rewrite put_lookup_ne by discriminate);
    apply lookup_empty ].

Lemma to_frame_rating (d : Predict.order_input) :
  Predict.to_frame d !! "delivery_person_rating"
  = Predict.VNum <$> Predict.in_delivery_person_rating d.
Proof. frame_field. Qed.

Lemma to_frame_distance (d : Predict.order_input) :
  Predict.to_frame d !! "distance_km"
  = Predict.VNum <$> Predict.in_distance_km d.
Proof. frame_field. Qed.

Lemma to_frame_preparation (d : Predict.order_input) :
  Predict.to_frame d !! "preparation_time"
  = Predict.VNum <$> Predict.in_preparation_time d.
Proof. frame_field. Qed.

Lemma to_frame_vehicle (d : Predict.order_input) :
  Predict.to_frame d !! "vehicle_type"
  = Predict.VStr <$> Predict.in_vehicle_type d.
Proof. frame_field. Qed.

Lemma to_frame_order_type (d : Predict.order_input) :
  Predict.to_frame d !! "order_type"
  = Predict.VStr <$> Predict.in_order_type d.
Proof. frame_field. Qed.

Lemma to_frame_weather (d : Predict.order_input) :
  Predict.to_frame d !! "weather_condition"
  = Predict.VStr <$> Predict.in_weather_condition d.
Proof. frame_field. Qed.

Lemma to_frame_time_of_day (d : Predict.order_input) :
  Predict.to_frame d !! "time_of_day"
  = Predict.VStr <$> Predict.in_time_of_day d.
Proof. frame_field. Qed.

Lemma to_frame_day_of_week (d : Predict.order_input) :
  Predict.to_frame d !! "day_of_week"
  = Predict.VStr <$> Predict.in_day_of_week d.
Proof. frame_field. Qed.

Lemma put_cell (P : string -> Predict.value -> Prop) (k : string)
      (o : option Predict.value) (df : gmap string Predict.value) :
  (forall x, o = Some x -> P k x) ->
  (forall k' v, df !! k' = Some v -> P k' v) ->
  forall k' v, Predict.put k o df !! k' = Some v -> P k' v.
Proof.
  intros Hk Hdf k' v. rewrite put_lookup. case_decide as Heq.
  - subst k'. destruct o as [x |]; [intros [= <-]; now apply Hk | apply Hdf].
  - apply Hdf.
Qed.

(** The input row has the eight schema columns at most: a cell under a
    categorical name is a string, any other cell is a number. *)
Lemma to_frame_cell (d : Predict.order_input) (k : string)
      (v : Predict.value) :
  Predict.to_frame d !! k = Some v ->
  (k ∈ Predict.categorical_cols /\ exists s, v = Predict.VStr s)
  \/ (k ∈ ["delivery_person_rating"; "distance_km"; "preparation_time"]
      /\ exists q, v = Predict.VNum q).
Proof.
  revert k v. unfold Predict.to_frame, Predict.categorical_cols.
  repeat (apply put_cell;
          [ intros x (y & _ & ->)%fmap_Some;
            first [ solve [left; split; [set_solver | eauto]]
                  | solve [right; split; [set_solver | eauto]] ]
          | ]).
  intros k v. rewrite lookup_empty. discriminate.
Qed.

(** ** The encoding loop *)

Lemma le_transform_raises (le : Predict.LabelEncoder) (v : Predict.value)
      (e : exn) :
  Predict.le_transform le v = Raise e ->
  e = ValueError "y contains previously unseen labels".
Proof.
  unfold Predict.le_transform. destruct v as [q | s].
  - now intros [= <-].
  - destruct (Predict.index_of s (Predict.classes_ le));
      [discriminate | now intros [= <-]].
Qed.

(** A string is unseen by an encoder when it is none of its classes. *)
Lemma index_of_None (s : string) (classes : list string) :
  Predict.index_of s classes = None <-> s ∉ classes.
Proof.
  induction classes as [| c classes IH]; cbn [Predict.index_of].
  - split; [intros _; apply not_elem_of_nil | reflexivity].
  - destruct (String.eqb_spec s c) as [-> | Hne].
    + split; [discriminate | intros []; left].
    + rewrite fmap_None, IH, not_elem_of_cons. tauto.
Qed.

Section EncodeCol.
Import Predict.
Variables (encoders : gmap string LabelEncoder) (col : string)
          (df : gmap string value).

Lemma encode_col_absent :
  df !! col = None -> encode_col encoders col df = ([], Ok df).
Proof. unfold encode_col. now intros ->. Qed.

Lemma encode_col_seen (v : value) (le : LabelEncoder) (code : Z) :
  df !! col = Some v -> encoders !! col = Some le ->
  le_transform le v = Ok code ->
  encode_col encoders col df
  = ([], Ok (<[col ++ "_encoded" := VNum (inject_Z code)]> df)).
Proof.
  unfold encode_col, getitem. intros -> -> Hle. cbn [rbind].
  now rewrite Hle.
Qed.

Lemma encode_col_unseen (v : value) (le : LabelEncoder) (e : exn) :
  df !! col = Some v -> encoders !! col = Some le ->
  le_transform le v = Raise e ->
  encode_col encoders col df
  = ([unseen_warning col], Ok (<[col ++ "_encoded" := VNum 0]> df)).
Proof.
  unfold encode_col, getitem. intros -> -> Hle. cbn [rbind].
  rewrite Hle. now rewrite (le_transform_raises _ _ _ Hle).
Qed.

(** An encoder missing from the bundle is not an unseen category: the
    [KeyError] is not caught by the loop. *)
Lemma encode_col_no_encoder (v : value) :
  df !! col = Some v -> encoders !! col = None ->
  encode_col encoders col df = ([], Raise (KeyError col)).
Proof. unfold encode_col, getitem. now intros -> ->. Qed.

(** With an encoder at hand an iteration never raises; it writes the
    encoded column only, and only when the raw column is there. *)
Lemma encode_col_total :
  is_Some (encoders !! col) ->
  exists out df',
    encode_col encoders col df = (out, Ok df')
    /\ (forall k, k <> col ++ "_encoded" -> df' !! k = df !! k)
    /\ (df !! col = None -> df' = df)
    /\ (forall v le, df !! col = Some v -> encoders !! col = Some le ->
        match le_transform le v with
        | Ok code => df' !! (col ++ "_encoded") = Some (VNum (inject_Z code))
        | Raise _ => df' !! (col ++ "_encoded") = Some (VNum 0)
                     /\ unseen_warning col ∈ out
        end).
Proof.
  intros [le Hle]. destruct (df !! col) as [v |] eqn:Hv.
  - destruct (le_transform le v) as [code | e] eqn:Ht.
    + rewrite (encode_col_seen v le code) by assumption.
      do 2 eexists. split; [reflexivity |]. split; [| split].
      * intros k Hk. now rewrite lookup_insert_ne.
      * discriminate.
      * intros v' le' [= <-] Hle'. rewrite Hle in Hle'.
        injection Hle' as <-. rewrite Ht. apply lookup_insert_eq.
    + rewrite (encode_col_unseen v le e) by assumption.
      do 2 eexists. split; [reflexivity |]. split; [| split].
      * intros k Hk. now rewrite lookup_insert_ne.
      * discriminate.
      * intros v' le' [= <-] Hle'. rewrite Hle in Hle'.
        injection Hle' as <-. rewrite Ht.
        split; [apply lookup_insert_eq | apply list_elem_of_here].
  - rewrite encode_col_absent by assumption.
    do 2 eexists. split; [reflexivity |]. split; [| split]; auto.
    intros v le' [=].
Qed.

End EncodeCol.

(** The whole loop, over columns that all have an encoder and whose names
    are not themselves encoded names: it never raises, leaves every column
    but the encoded ones alone, and for each raw column present stores the
    encoder's code -- or 0, with a warning, when the encoder does not know
    the value. *)
Lemma encode_categoricals_total (encoders : gmap string Predict.LabelEncoder)
      (cols : list string) (df : gmap string Predict.value) :
  (forall c, c ∈ cols -> is_Some (encoders !! c)) ->
  (forall c c', c ∈ cols -> c' ∈ cols -> c <> c' ++ "_encoded") ->
  exists out df',
    Predict.encode_categoricals encoders cols df = (out, Ok df')
    /\ (forall k, (forall c, c ∈ cols -> k <> c ++ "_encoded") ->
                  df' !! k = df !! k)
    /\ (forall c, c ∈ cols -> df !! c = None ->
                  df' !! (c ++ "_encoded") = df !! (c ++ "_encoded"))
    /\ (forall c v le, c ∈ cols -> df !! c = Some v -> encoders !! c = Some le ->
        match Predict.le_transform le v with
        | Ok code =>
            df' !! (c ++ "_encoded") = Some (Predict.VNum (inject_Z code))
        | Raise _ =>
            df' !! (c ++ "_encoded") = Some (Predict.VNum 0)
            /\ Predict.unseen_warning c ∈ out
        end).
Proof.
  revert df. induction cols as [| a cols IH]; intros df Henc Hnames.
  - exists [], df. split; [reflexivity |].
    repeat split; intros; exfalso; eapply not_elem_of_nil; eassumption.
  - destruct (encode_col_total encoders a df) as (out1 & df1 & H1 & Hk1 & Hn1 & Hs1).
    { apply Henc. left. }
    destruct (IH df1) as (out2 & df2 & H2 & Hk2 & Hn2 & Hs2).
    { intros c Hc. apply Henc. now right. }
    { intros c c' Hc Hc'. apply Hnames; now right. }
    assert (forall c, c ∈ a :: cols -> df1 !! c = df !! c) as Hraw.
    { intros c Hc. apply Hk1. apply Hnames; [exact Hc | left]. }
    assert (forall c, c ∉ cols -> df2 !! (c ++ "_encoded") = df1 !! (c ++ "_encoded"))
      as Hlast.
    { intros c Hc. apply Hk2. intros c' Hc' Heq.
      apply append_suffix_inj in Heq. now subst c'. }
    exists (app out1 out2), df2. split.
    { cbn [Predict.encode_categoricals].
      rewrite (bind_ok _ _ out1 df1 H1), H2. reflexivity. }
    split; [| split].
    + intros k Hk. rewrite Hk2.
      * apply Hk1. apply Hk. left.
      * intros c Hc. apply Hk. now right.
    + intros c Hc Hnone. destruct (decide (c ∈ cols)) as [Hin | Hnin].
      * rewrite Hn2; [| exact Hin | now rewrite Hraw].
        destruct (decide (c = a)) as [-> | Hne].
        -- now rewrite (Hn1 Hnone).
        -- apply Hk1. intros Heq. now apply append_suffix_inj in Heq.
      * apply elem_of_cons in Hc as [-> | Hc]; [| contradiction].
        rewrite Hlast by exact Hnin. now rewrite (Hn1 Hnone).
    + intros c v le Hc Hv Hle. destruct (decide (c ∈ cols)) as [Hin | Hnin].
      * specialize (Hs2 c v le Hin). rewrite Hraw in Hs2 by exact Hc.
        specialize (Hs2 Hv Hle).
        destruct (Predict.le_transform le v); [exact Hs2 |].
        destruct Hs2 as [Hz Hw]. split; [exact Hz |].
        apply elem_of_app. now right.
      * apply elem_of_cons in Hc as [-> | Hc]; [| contradiction].
        specialize (Hs1 v le Hv Hle). rewrite Hlast by exact Hnin.
        destruct (Predict.le_transform le v); [exact Hs1 |].
        destruct Hs1 as [Hz Hw]. split; [exact Hz |].
        apply elem_of_app. now left.
Qed.

(** ** Feature engineering, default-filling and selection *)

Section Frames.
Import Predict.
Variable df : gmap string value.

Lemma feature_engineering_ok (dist rat : Q) :
  df !! "distance_km" = Some (VNum dist) ->
  df !! "delivery_person_rating" = Some (VNum rat) ->
  feature_engineering df
  = Ok (<["rating_distance_interaction" := VNum (rat * dist)]>
          (<["distance_squared" := VNum (dist * dist)]> df)).
Proof.
  intros Hd Hr. unfold feature_engineering, getitem.
  rewrite Hd. cbn [rbind pow2].
  rewrite !lookup_insert_ne by discriminate. rewrite Hr, Hd. reflexivity.
Qed.

(** Without a [distance_km] column the first engineered feature cannot
    be computed. *)
Lemma feature_engineering_no_distance :
  df !! "distance_km" = None ->
  feature_engineering df = Raise (KeyError "distance_km").
Proof. intros Hd. unfold feature_engineering, getitem. now rewrite Hd. Qed.

(** Without a [delivery_person_rating] column feature engineering
    raises as well. *)
Lemma feature_engineering_no_rating :
  df !! "delivery_person_rating" = None ->
  exists e, feature_engineering df = Raise e.
Proof.
  intros Hr. unfold feature_engineering, getitem.
  destruct (df !! "distance_km") as [v |]; [| eauto].
  cbn [rbind]. destruct (pow2 v) as [d2 | e]; [| eauto].
  cbn [rbind]. rewrite lookup_insert_ne by discriminate.
  rewrite Hr. eauto.
Qed.

(** The default-fill loop: a column already there keeps its cell, a
    feature column that is missing gets 0, nothing else is added. *)
Lemma fill_missing_lookup (feature_cols : list string) (k : string) :
  fill_missing feature_cols df !! k
  = match df !! k with
    | Some v => Some v
    | None => if decide (k ∈ feature_cols) then Some (VNum 0) else None
    end.
Proof.
  generalize df as df'.
  induction feature_cols as [| c cols IH]; intros df'.
  - cbn [fill_missing]. destruct (df' !! k); [reflexivity |].
    destruct (decide (k ∈ [])) as [Hin | _]; [| reflexivity].
    now apply not_elem_of_nil in Hin.
  - cbn [fill_missing]. rewrite IH. destruct (df' !! c) as [w |] eqn:Hc.
    + destruct (df' !! k) eqn:Hk; [reflexivity |].
      assert (k <> c) as Hne by congruence.
      destruct (decide (k ∈ cols)) as [Hin | Hnin];
        destruct (decide (k ∈ c :: cols)) as [Hin' | Hnin'];
        try reflexivity; exfalso.
      * apply Hnin'. now right.
      * apply elem_of_cons in Hin' as [? | ?]; auto.
    + rewrite lookup_insert. destruct (decide (c = k)) as [<- | Hne].
      * rewrite Hc. destruct (decide (c ∈ c :: cols)) as [_ | Hnin];
          [reflexivity | exfalso; apply Hnin; left].
      * destruct (df' !! k); [reflexivity |].
        destruct (decide (k ∈ cols)) as [Hin | Hnin];
          destruct (decide (k ∈ c :: cols)) as [Hin' | Hnin'];
          try reflexivity; exfalso.
        -- apply Hnin'. now right.
        -- apply elem_of_cons in Hin' as [? | ?]; auto.
Qed.

Lemma select_Forall2 (feature_cols : list string) (X : list value) :
  select df feature_cols = Ok X
  <-> Forall2 (fun c v => df !! c = Some v) feature_cols X.
Proof.
  revert X. induction feature_cols as [| c cols IH]; intros X.
  - cbn [select]. split.
    + intros [= <-]. constructor.
    + intros HF. apply Forall2_nil_inv_l in HF. now subst.
  - cbn [select]. unfold getitem. split.
    + destruct (df !! c) as [v |] eqn:Hc; [| discriminate]. cbn [rbind].
      destruct (select df cols) as [vs | e] eqn:Hs; [| discriminate].
      cbn [rbind]. intros [= <-]. constructor; [exact Hc | now apply IH].
    + intros HF. apply Forall2_cons_inv_l in HF as (v & vs & Hv & Hvs & ->).
      rewrite Hv. cbn [rbind]. apply IH in Hvs. now rewrite Hvs.
Qed.

(** Selection succeeds as soon as every feature column is there. *)
Lemma select_total (feature_cols : list string) :
  (forall c, c ∈ feature_cols -> is_Some (df !! c)) ->
  exists X, select df feature_cols = Ok X.
Proof.
  induction feature_cols as [| c cols IH]; intros Hall.
  - exists []. reflexivity.
  - destruct (Hall c) as [v Hv]; [left |].
    destruct IH as [vs Hvs]; [intros c' Hc'; apply Hall; now right |].
    exists (v :: vs). cbn [select]. unfold getitem.
    now rewrite Hv, Hvs.
Qed.

End Frames.

(** ** The frame handed to the scaler *)

(** Case analysis on a membership in a literal list of names. *)
Ltac name_cases H :=
  repeat (apply elem_of_cons in H as [-> | H]);
  [.. | apply elem_of_nil in H; contradiction].

(** A concrete name that is one of the entries of a literal list. *)
Ltac name_in :=
  repeat first [apply list_elem_of_here | apply list_elem_of_further].

(** A concrete name that is in none of the entries of a literal list. *)
Ltac name_absurd H :=
  repeat (let E := fresh "E" in
          apply elem_of_cons in H as [E | H]; [simpl in E; discriminate E |]);
  apply elem_of_nil in H; contradiction.

Lemma categorical_not_encoded (c c' : string) :
  c ∈ Predict.categorical_cols -> c' ∈ Predict.categorical_cols ->
  c <> c' ++ "_encoded".
Proof.
  unfold Predict.categorical_cols. intros Hc Hc'.
  name_cases Hc; name_cases Hc'; discriminate.
Qed.

(** The input row has no encoded column of its own. *)
Lemma to_frame_no_encoded (d : Predict.order_input) (c : string) :
  c ∈ Predict.categorical_cols ->
  Predict.to_frame d !! (c ++ "_encoded") = None.
Proof.
  intros Hc. destruct (Predict.to_frame d !! (c ++ "_encoded")) as [v |] eqn:E;
    [exfalso | reflexivity].
  unfold Predict.categorical_cols in Hc.
  apply to_frame_cell in E as [[Hk _] | [Hk _]];
    unfold Predict.categorical_cols in Hk;
    name_cases Hc; name_absurd Hk.
Qed.

(** A categorical cell of the input row is a string. *)
Lemma to_frame_categorical (d : Predict.order_input) (c : string)
      (v : Predict.value) :
  c ∈ Predict.categorical_cols -> Predict.to_frame d !! c = Some v ->
  exists s, v = Predict.VStr s.
Proof.
  intros Hc Hv. apply to_frame_cell in Hv as [[_ Hs] | [Hk _]]; [exact Hs |].
  exfalso. unfold Predict.categorical_cols in Hc.
  name_cases Hc; name_absurd Hk.
Qed.

Lemma raw_name_not_encoded (k c : string) :
  k ∈ ["delivery_person_rating"; "distance_km"; "preparation_time";
       "distance_squared"; "rating_distance_interaction"] ->
  c ∈ Predict.categorical_cols -> k <> c ++ "_encoded".
Proof.
  unfold Predict.categorical_cols. intros Hk Hc.
  name_cases Hk; name_cases Hc; discriminate.
Qed.

(** For a bundle with its five encoders and an input that has a distance
    and a rating, the frame is built without an exception, and this is
    what it holds. *)
Lemma prepare_frame_ok (art : Predict.artifacts) (d : Predict.order_input)
      (dist rat : Q) :
  (forall c, c ∈ Predict.categorical_cols ->
             is_Some (Predict.label_encoders art !! c)) ->
  Predict.in_distance_km d = Some dist ->
  Predict.in_delivery_person_rating d = Some rat ->
  exists out df,
    Predict.prepare_frame art d = (out, Ok df)
    /\ df !! "distance_km" = Some (Predict.VNum dist)
    /\ df !! "delivery_person_rating" = Some (Predict.VNum rat)
    /\ df !! "distance_squared" = Some (Predict.VNum (dist * dist))
    /\ df !! "rating_distance_interaction" = Some (Predict.VNum (rat * dist))
    /\ df !! "preparation_time"
       = match Predict.in_preparation_time d with
         | Some p => Some (Predict.VNum p)
         | None =>
             if decide ("preparation_time" ∈ Predict.feature_columns art)
             then Some (Predict.VNum 0) else None
         end
    /\ (forall c s le,
          c ∈ Predict.categorical_cols ->
          Predict.to_frame d !! c = Some (Predict.VStr s) ->
          Predict.label_encoders art !! c = Some le ->
          match Predict.index_of s (Predict.classes_ le) with
          | Some i =>
              df !! (c ++ "_encoded")
              = Some (Predict.VNum (inject_Z (Z.of_nat i)))
          | None =>
              df !! (c ++ "_encoded") = Some (Predict.VNum 0)
              /\ Predict.unseen_warning c ∈ out
          end)
    /\ (forall c,
          c ∈ Predict.categorical_cols ->
          Predict.to_frame d !! c = None ->
          c ++ "_encoded" ∈ Predict.feature_columns art ->
          df !! (c ++ "_encoded") = Some (Predict.VNum 0))
    /\ (forall k, k ∈ Predict.feature_columns art -> is_Some (df !! k))
    /\ (forall k v, df !! k = Some v -> k ∉ Predict.categorical_cols ->
                    exists q, v = Predict.VNum q).
Proof.
  intros Henc Hd Hr. unfold Predict.prepare_frame.
  destruct (encode_categoricals_total
              (Predict.label_encoders art) Predict.categorical_cols
              (Predict.to_frame d) Henc categorical_not_encoded)
    as (out & df1 & H1 & Hk1 & Hn1 & Hs1).
  assert (forall k,
             k ∈ ["delivery_person_rating"; "distance_km"; "preparation_time";
                  "distance_squared"; "rating_distance_interaction"] ->
             df1 !! k = Predict.to_frame d !! k) as Hraw.
  { intros k Hk. apply Hk1. intros c Hc. now apply raw_name_not_encoded. }
  assert (df1 !! "distance_km" = Some (Predict.VNum dist)) as Hd1.
  { rewrite Hraw by name_in. now rewrite to_frame_distance, Hd. }
  assert (df1 !! "delivery_person_rating" = Some (Predict.VNum rat)) as Hr1.
  { rewrite Hraw by name_in. now rewrite to_frame_rating, Hr. }
  rewrite (bind_ok _ _ out df1 H1).
  rewrite (feature_engineering_ok df1 dist rat Hd1 Hr1).
  cbn [Predict.lift Predict.bind Predict.ret fst snd]. rewrite !app_nil_r.
  do 2 eexists. split; [reflexivity |].
  repeat split.
  - rewrite fill_missing_lookup, !lookup_insert_ne by discriminate.
    now rewrite Hd1.
  - rewrite fill_missing_lookup, !lookup_insert_ne by discriminate.
    now rewrite Hr1.
  - rewrite fill_missing_lookup, lookup_insert_ne by discriminate.
    now rewrite lookup_insert_eq.
  - now rewrite fill_missing_lookup, lookup_insert_eq.
  - rewrite fill_missing_lookup, !lookup_insert_ne by discriminate.
    rewrite Hraw by name_in. rewrite to_frame_preparation.
    now destruct (Predict.in_preparation_time d).
  - intros c s le Hc Hs Hle. specialize (Hs1 c _ le Hc Hs Hle).
    assert ((<["rating_distance_interaction" := Predict.VNum (rat * dist)]>
               (<["distance_squared" := Predict.VNum (dist * dist)]> df1))
              !! (c ++ "_encoded") = df1 !! (c ++ "_encoded")) as Hins.
    { rewrite !lookup_insert_ne; [reflexivity | |];
        apply raw_name_not_encoded; solve [name_in | exact Hc]. }
    cbn [Predict.le_transform] in Hs1.
    destruct (Predict.index_of s (Predict.classes_ le)) as [i |].
    + now rewrite fill_missing_lookup, Hins, Hs1.
    + destruct Hs1 as [Hz Hw]. split; [| exact Hw].
      now rewrite fill_missing_lookup, Hins, Hz.
  - intros c Hc Hnone Hfeat.
    rewrite fill_missing_lookup, !lookup_insert_ne;
      [| apply raw_name_not_encoded; solve [name_in | exact Hc]
       | apply raw_name_not_encoded; solve [name_in | exact Hc]].
    rewrite (Hn1 c Hc Hnone), (to_frame_no_encoded d c Hc).
    now destruct (decide (c ++ "_encoded" ∈ Predict.feature_columns art)).
  - intros k Hk. rewrite fill_missing_lookup.
    match goal with |- is_Some (match ?o with _ => _ end) => destruct o end;
      [eauto |].
    destruct (decide (k ∈ Predict.feature_columns art)); [eauto | contradiction].
  - intros k v. rewrite fill_missing_lookup.
    rewrite lookup_insert. destruct (decide ("rating_distance_interaction" = k)) as [<- | Hn2].
    { intros [= <-] _. eauto. }
    rewrite lookup_insert. destruct (decide ("distance_squared" = k)) as [<- | Hn3].
    { intros [= <-] _. eauto. }
    destruct (df1 !! k) as [w |] eqn:Hw.
    + intros [= <-] Hcat.
      destruct (decide (k ∈ (fun c => c ++ "_encoded") <$> Predict.categorical_cols))
        as [Hin | Hnin].
      * apply list_elem_of_fmap in Hin as (c & -> & Hc).
        destruct (Predict.to_frame d !! c) as [x |] eqn:Hx.
        -- destruct (to_frame_categorical d c x Hc Hx) as [s ->].
           destruct (Henc c Hc) as [le Hle].
           specialize (Hs1 c _ le Hc Hx Hle).
           destruct (Predict.le_transform le (Predict.VStr s));
             [| destruct Hs1 as [Hs1 _]]; rewrite Hs1 in Hw;
             injection Hw as <-; eauto.
        -- rewrite (Hn1 c Hc Hx), (to_frame_no_encoded d c Hc) in Hw.
           discriminate.
      * rewrite Hk1 in Hw.
        -- apply to_frame_cell in Hw as [[Hc _] | [_ Hq]];
             [contradiction | exact Hq].
        -- intros c Hc ->. apply Hnin. apply list_elem_of_fmap. eauto.
    + destruct (decide (k ∈ Predict.feature_columns art));
        [intros [= <-] _; eauto | discriminate].
Qed.

(** ** Scaling and inference succeed on a well-shaped bundle *)

Lemma trained_shape_spec (art : Predict.artifacts) :
  Predict.trained_shape art = true ->
  Predict.feature_columns art = Train.feature_cols
  /\ (forall c, c ∈ Predict.categorical_cols ->
                is_Some (Predict.label_encoders art !! c))
  /\ length (Predict.mean_ (Predict.scaler art)) = 10%nat
  /\ length (Predict.scale_ (Predict.scaler art)) = 10%nat
  /\ Forall (fun s => ~ s == 0) (Predict.scale_ (Predict.scaler art)).
Proof.
  unfold Predict.trained_shape. rewrite !andb_true_iff.
  intros [[[[Hf He] Hm] Hs] Hz].
  apply bool_decide_eq_true in Hf.
  apply Nat.eqb_eq in Hm, Hs.
  repeat split; auto.
  - intros c Hc. rewrite forallb_forall in He.
    apply list_elem_of_In in Hc. specialize (He c Hc).
    now apply bool_decide_eq_true in He.
  - apply List.Forall_forall. intros s' Hin. rewrite forallb_forall in Hz.
    specialize (Hz s' Hin). apply negb_true_iff in Hz.
    intros Heq. apply Qeq_bool_iff in Heq. congruence.
Qed.

Lemma as_floats_total (X : list Predict.value) :
  Forall (fun v => exists q, v = Predict.VNum q) X ->
  exists qs, Predict.as_floats X = Ok qs /\ length qs = length X.
Proof.
  induction 1 as [| v X [q ->] _ (qs & Hqs & Hlen)].
  - exists []. auto.
  - exists (q :: qs). cbn [Predict.as_floats]. rewrite Hqs.
    cbn [rbind length]. auto.
Qed.

Lemma np_div_finite (a b : Q) : ~ b == 0 -> Np.np_div a b = Np.Finite (a / b).
Proof.
  intros Hb. unfold Np.np_div. destruct (Qeq_bool b 0) eqn:E; [| reflexivity].
  apply Qeq_bool_iff in E. contradiction.
Qed.

(** Standardising with non-zero scales gives finite values only. *)
Lemma check_array_standardize (xs means scales : list Q) :
  Forall (fun s => ~ s == 0) scales ->
  exists x, Predict.check_array (Predict.standardize xs means scales) = Ok x.
Proof.
  intros Hz. revert xs means.
  induction Hz as [| s scales Hs _ IH]; intros xs means.
  - exists []. destruct xs, means; reflexivity.
  - destruct xs as [| x xs]; [exists []; reflexivity |].
    destruct means as [| m means]; [exists []; reflexivity |].
    cbn [Predict.standardize Predict.check_array].
    rewrite np_div_finite by exact Hs. cbn [Np.is_finite].
    destruct (IH xs means) as [x' ->]. cbn [rbind]. eauto.
Qed.

(** [predict] succeeds on every input record that has a distance and a
    rating, whatever else it leaves out and whatever categories it
    names; what it prints is what the encoding loop printed. *)
Lemma predict_succeeds (art : Predict.artifacts) (path : string)
      (d : Predict.order_input) (dist rat : Q) :
  Predict.trained_shape art = true ->
  Predict.in_distance_km d = Some dist ->
  Predict.in_delivery_person_rating d = Some rat ->
  let self := {| Predict.model_path := path;
                 Predict.model_artifacts := Some art |} in
  exists out df X r,
    Predict.prepare_frame art d = (out, Ok df)
    /\ Predict.select df (Predict.feature_columns art) = Ok X
    /\ Predict.preprocess_input self (Predict.InDict d) = (out, Ok X)
    /\ Predict.predict self (Predict.InDict d) = (out, Ok r).
Proof.
  intros Hshape Hd Hr self.
  apply trained_shape_spec in Hshape as (Hcols & Henc & Hm & Hs & Hz).
  destruct (prepare_frame_ok art d dist rat Henc Hd Hr)
    as (out & df & Hframe & _ & _ & _ & _ & _ & _ & _ & Hall & Hnum).
  destruct (select_total df (Predict.feature_columns art) Hall) as [X HX].
  assert (Predict.preprocess_input self (Predict.InDict d) = (out, Ok X)) as Hpre.
  { unfold Predict.preprocess_input. cbn [self Predict.model_artifacts].
    rewrite (bind_ok _ _ out df Hframe). rewrite HX.
    cbn [Predict.lift fst snd]. now rewrite app_nil_r. }
  assert (Forall (fun v => exists q, v = Predict.VNum q) X) as HXnum.
  { apply select_Forall2 in HX. rewrite Hcols in HX.
    eapply Forall2_Forall_r; [exact HX |].
    apply List.Forall_forall. intros c Hc v Hv.
    apply (Hnum c v Hv). intros Hcat.
    apply list_elem_of_In in Hc.
    unfold Train.feature_cols in Hc. unfold Predict.categorical_cols in Hcat.
    name_cases Hc; name_absurd Hcat. }
  destruct (as_floats_total X HXnum) as (qs & Hqs & Hlen).
  assert (length X = 10%nat) as HlenX.
  { apply select_Forall2 in HX. apply Forall2_length in HX.
    rewrite <- HX, Hcols. reflexivity. }
  destruct (check_array_standardize qs (Predict.mean_ (Predict.scaler art))
              (Predict.scale_ (Predict.scaler art)) Hz) as [x Hx].
  exists out, df, X. eexists. split; [exact Hframe |].
  split; [exact HX |]. split; [exact Hpre |].
  unfold Predict.predict. cbn [self Predict.model_artifacts].
  fold self. rewrite (bind_ok _ _ out X Hpre).
  unfold Predict.scaler_transform. rewrite Hqs. cbn [rbind].
  rewrite Hlen, HlenX, Hm. cbn [Nat.eqb].
  rewrite bind_lift_ok, Hx, bind_lift_ok.
  cbn [Predict.ret fst snd Predict.wrap_failure].
  rewrite !app_nil_r. reflexivity.
Qed.

(** ** Inputs without a distance or a rating *)

Lemma encode_col_keeps (encoders : gmap string Predict.LabelEncoder)
      (col : string) (df df' : gmap string Predict.value)
      (out : list string) (k : string) :
  Predict.encode_col encoders col df = (out, Ok df') ->
  k <> col ++ "_encoded" -> df' !! k = df !! k.
Proof.
  unfold Predict.encode_col. intros Henc Hk.
  destruct (df !! col) as [v |]; [| now injection Henc as _ <-].
  destruct (rbind _ _) as [code | e].
  - injection Henc as _ <-. now rewrite lookup_insert_ne.
  - destruct e; try discriminate.
    injection Henc as _ <-. now rewrite lookup_insert_ne.
Qed.

(** Whatever the bundle's encoders are, the encoding loop touches the
    encoded columns only. *)
Lemma encode_categoricals_keeps (encoders : gmap string Predict.LabelEncoder)
      (cols : list string) (df df' : gmap string Predict.value)
      (out : list string) (k : string) :
  Predict.encode_categoricals encoders cols df = (out, Ok df') ->
  (forall c, c ∈ cols -> k <> c ++ "_encoded") -> df' !! k = df !! k.
Proof.
  revert df out. induction cols as [| a cols IH]; intros df out Henc Hk.
  - now injection Henc as _ <-.
  - cbn [Predict.encode_categoricals] in Henc.
    apply bind_ok_inv in Henc as (out1 & df1 & out2 & H1 & H2 & _).
    rewrite (IH df1 out2 H2) by (intros c Hc; apply Hk; now right).
    apply (encode_col_keeps _ _ _ _ _ _ H1). apply Hk. left.
Qed.

(** A frame is only ever built for an input that has both a distance and
    a rating. *)
Lemma prepare_frame_needs (art : Predict.artifacts) (d : Predict.order_input)
      (out : list string) (df : gmap string Predict.value) :
  Predict.prepare_frame art d = (out, Ok df) ->
  is_Some (Predict.in_distance_km d)
  /\ is_Some (Predict.in_delivery_person_rating d).
Proof.
  unfold Predict.prepare_frame. intros Hp.
  apply bind_ok_inv in Hp as (out1 & df1 & out2 & H1 & Hp & _).
  apply bind_ok_inv in Hp as (out3 & df2 & out4 & H2 & _ & _).
  apply lift_ok_inv in H2 as [H2 _].
  assert (forall k,
             k ∈ ["delivery_person_rating"; "distance_km"; "preparation_time";
                  "distance_squared"; "rating_distance_interaction"] ->
             df1 !! k = Predict.to_frame d !! k) as Hraw.
  { intros k Hk. apply (encode_categoricals_keeps _ _ _ _ _ _ H1).
    intros c Hc. now apply raw_name_not_encoded. }
  split.
  - destruct (Predict.in_distance_km d) as [dist |] eqn:Hd; [eauto |].
    rewrite feature_engineering_no_distance in H2; [discriminate |].
    rewrite Hraw by name_in. now rewrite to_frame_distance, Hd.
  - destruct (Predict.in_delivery_person_rating d) as [rat |] eqn:Hr; [eauto |].
    destruct (feature_engineering_no_rating df1) as [e He]; [| congruence].
    rewrite Hraw by name_in. now rewrite to_frame_rating, Hr.
Qed.

Lemma preprocess_input_needs (self : Predict.DeliveryTimePredictor)
      (d : Predict.order_input) (out : list string) (X : list Predict.value) :
  Predict.preprocess_input self (Predict.InDict d) = (out, Ok X) ->
  is_Some (Predict.in_distance_km d)
  /\ is_Some (Predict.in_delivery_person_rating d).
Proof.
  unfold Predict.preprocess_input.
  destruct (Predict.model_artifacts self) as [art |]; [| discriminate].
  intros Hp. apply bind_ok_inv in Hp as (out1 & df & out2 & H1 & _ & _).
  now apply prepare_frame_needs in H1.
Qed.

Lemma predict_needs (self : Predict.DeliveryTimePredictor)
      (d : Predict.order_input) (out : list string) (r : Predict.prediction) :
  Predict.predict self (Predict.InDict d) = (out, Ok r) ->
  is_Some (Predict.in_distance_km d)
  /\ is_Some (Predict.in_delivery_person_rating d).
Proof.
  intros Hp. apply predict_ok_inv in Hp as (art & X & _ & _ & _ & HX & _).
  now apply preprocess_input_needs in HX.
Qed.

(** C3 (the code against the specification).  For every bundle and
    every input record that omits [distance_km] or
    [delivery_person_rating], [preprocess_input] raises: the engineered
    features are computed before the default-fill loop is reached, so the
    absent column is never filled with 0. *)
Theorem C3_absent_numeric_column_raises (self : Predict.DeliveryTimePredictor)
        (d : Predict.order_input) :
  Predict.in_distance_km d = None
  \/ Predict.in_delivery_person_rating d = None ->
  exists out e,
    Predict.preprocess_input self (Predict.InDict d) = (out, Raise e).
Proof.
  intros Habsent.
  destruct (Predict.preprocess_input self (Predict.InDict d))
    as [out [X | e]] eqn:Hp; [exfalso | eauto].
  apply preprocess_input_needs in Hp as [[dist Hd] [rat Hr]].
  destruct Habsent; congruence.
Qed.

(** With the five encoders in the bundle the exception is the [KeyError]
    of the missing column, which [predict] wraps. *)
Lemma absent_distance_key_error (art : Predict.artifacts) (path : string)
      (d : Predict.order_input) :
  (forall c, c ∈ Predict.categorical_cols ->
             is_Some (Predict.label_encoders art !! c)) ->
  Predict.in_distance_km d = None ->
  let self := {| Predict.model_path := path;
                 Predict.model_artifacts := Some art |} in
  exists out,
    Predict.preprocess_input self (Predict.InDict d)
    = (out, Raise (KeyError "distance_km"))
    /\ Predict.predict self (Predict.InDict d)
       = (out, Raise (ValueError "Prediction failed: 'distance_km'")).
Proof.
  intros Henc Hd self.
  destruct (encode_categoricals_total
              (Predict.label_encoders art) Predict.categorical_cols
              (Predict.to_frame d) Henc categorical_not_encoded)
    as (out & df1 & H1 & Hk1 & _ & _).
  assert (Predict.feature_engineering df1 = Raise (KeyError "distance_km")) as Hfe.
  { apply feature_engineering_no_distance. rewrite Hk1.
    - now rewrite to_frame_distance, Hd.
    - intros c Hc. apply raw_name_not_encoded; [name_in | exact Hc]. }
  assert (Predict.preprocess_input self (Predict.InDict d)
          = (out, Raise (KeyError "distance_km"))) as Hpre.
  { unfold Predict.preprocess_input, Predict.prepare_frame.
    cbn [self Predict.model_artifacts].
    rewrite (bind_ok _ _ out df1 H1), Hfe.
    cbn [Predict.lift Predict.bind fst snd]. now rewrite app_nil_r. }
  exists out. split; [exact Hpre |].
  unfold Predict.predict. cbn [self Predict.model_artifacts]. fold self.
  rewrite (bind_raise _ _ out _ Hpre). reflexivity.
Qed.

(** The entry of the feature vector that sits at a feature column's
    position is that column's cell in the frame. *)
Lemma select_lookup (df : gmap string Predict.value)
      (feature_cols : list string) (X : list Predict.value)
      (i : nat) (c : string) (v : Predict.value) :
  Predict.select df feature_cols = Ok X ->
  feature_cols !! i = Some c -> df !! c = Some v -> X !! i = Some v.
Proof.
  intros HX Hi Hv. apply select_Forall2 in HX.
  destruct (Forall2_lookup_l _ _ _ _ _ HX Hi) as (w & Hw & Hcw).
  congruence.
Qed.

(** ** Default-filling the columns that may be absent *)

(** On a well-shaped bundle, and for an input that has a distance and a
    rating, an absent [preparation_time] and every absent categorical
    column are filled with 0 in the feature vector. *)
Lemma zero_fill_optional_columns (art : Predict.artifacts) (path : string)
      (d : Predict.order_input) (dist rat : Q) :
  Predict.trained_shape art = true ->
  Predict.in_distance_km d = Some dist ->
  Predict.in_delivery_person_rating d = Some rat ->
  let self := {| Predict.model_path := path;
                 Predict.model_artifacts := Some art |} in
  exists out X,
    Predict.preprocess_input self (Predict.InDict d) = (out, Ok X)
    /\ length X = length Train.feature_cols
    /\ (Predict.in_preparation_time d = None ->
        X !! 2%nat = Some (Predict.VNum 0))
    /\ (forall c i,
          c ∈ Predict.categorical_cols ->
          Predict.to_frame d !! c = None ->
          Train.feature_cols !! i = Some (c ++ "_encoded") ->
          X !! i = Some (Predict.VNum 0)).
Proof.
  intros Hshape Hd Hr self.
  destruct (predict_succeeds art path d dist rat Hshape Hd Hr)
    as (out & df & X & r & Hframe & HX & Hpre & _).
  apply trained_shape_spec in Hshape as (Hcols & Henc & _).
  destruct (prepare_frame_ok art d dist rat Henc Hd Hr)
    as (out' & df' & Hframe' & _ & _ & _ & _ & Hprep & _ & Hzero & _).
  rewrite Hframe in Hframe'. injection Hframe' as <- <-.
  rewrite Hcols in *.
  exists out, X. split; [exact Hpre |]. split; [| split].
  - apply select_Forall2, Forall2_length in HX. now rewrite HX.
  - intros Hnone. apply (select_lookup df _ X 2 "preparation_time" _ HX);
      [reflexivity |].
    rewrite Hprep, Hnone.
    destruct (decide ("preparation_time" ∈ Train.feature_cols)) as [_ | Hn];
      [reflexivity | exfalso; apply Hn; unfold Train.feature_cols; name_in].
  - intros c i Hc Hnone Hi.
    apply (select_lookup df _ X i (c ++ "_encoded") _ HX Hi).
    apply Hzero; [exact Hc | exact Hnone |].
    apply list_elem_of_lookup. eauto.
Qed.

(** ** Unseen categories *)


(** ** The breakdown *)


(** A weather that is not a key of the table has no delay. *)
Lemma weather_delay_default (w : string) :
  w ∉ ["clear"; "cloudy"; "light_rain"; "heavy_rain"; "storm"] ->
  Predict.dict_get Predict.weather_delays w 0%Z = 0%Z.
Proof.
  intros Hw. unfold Predict.dict_get, Predict.weather_delays.
  cbn [list_to_map foldr fst snd uncurry].
  rewrite !lookup_insert_ne, lookup_empty; [reflexivity | ..];
    intros <-; apply Hw; name_in.
Qed.

(** What the locals of [predict_with_breakdown] are when no exception is
    raised. *)
Lemma breakdown_terms_ok_inv (params : Predict.order_input) (est : Q)
      (t : Predict.terms) :
  Predict.breakdown_terms params est = Ok t ->
  Predict.prep_time t
  = Predict.params_get (Predict.in_preparation_time params) 15
  /\ Predict.distance t = Predict.params_get (Predict.in_distance_km params) 3
  /\ Predict.rating t
     = Predict.params_get (Predict.in_delivery_person_rating params) 4
  /\ Predict.vehicle t
     = Predict.params_get (Predict.in_vehicle_type params) "bike"
  /\ Predict.weather t
     = Predict.params_get (Predict.in_weather_condition params) "clear"
  /\ ~ Predict.efficiency_of (Predict.rating t) == 0
  /\ Predict.travel_time t
     = Predict.distance t * Predict.base_speed_of (Predict.vehicle t)
       / Predict.efficiency_of (Predict.rating t)
  /\ Predict.weather_delay t
     = Predict.dict_get Predict.weather_delays (Predict.weather t) 0%Z
  /\ Predict.remaining_time t
     = Num.py_max 0 (est - Predict.prep_time t - Predict.travel_time t
                     - inject_Z (Predict.weather_delay t)).
Proof.
  unfold Predict.breakdown_terms, Num.py_div.
  destruct (Qeq_bool _ 0) eqn:E; [discriminate |].
  intros [= <-]. cbn. repeat split.
  intros Heq. apply Qeq_bool_iff in Heq. congruence.
Qed.

Lemma breakdown_terms_total (params : Predict.order_input) (est : Q) :
  ~ Predict.efficiency_of
      (Predict.params_get (Predict.in_delivery_person_rating params) 4) == 0 ->
  exists t, Predict.breakdown_terms params est = Ok t.
Proof.
  intros Heff. unfold Predict.breakdown_terms.
  rewrite py_div_nonzero by exact Heff. eauto.
Qed.

(** What a successful [predict_with_breakdown] has computed. *)
Lemma predict_with_breakdown_ok_inv (self : Predict.DeliveryTimePredictor)
      (input : Predict.input_data) (out : list string)
      (res : Predict.breakdown_result) :
  Predict.predict_with_breakdown self input = (out, Ok res) ->
  exists params t,
    input = Predict.InDict params
    /\ Predict.predict self input = (out, Ok (Predict.base_prediction res))
    /\ Predict.breakdown_terms
         params (Predict.estimated_time (Predict.base_prediction res)) = Ok t
    /\ Predict.result_breakdown res
       = {| Predict.b_preparation_time := Num.py_round (Predict.prep_time t);
            Predict.b_travel_time := Num.py_round (Predict.travel_time t);
            Predict.b_weather_delay :=
              Num.py_round (inject_Z (Predict.weather_delay t));
            Predict.b_traffic_and_other :=
              Num.py_round (Predict.remaining_time t) |}
    /\ Predict.result_factors res
       = {| Predict.f_delivery_person_rating := Predict.rating t;
            Predict.f_vehicle_type := Predict.vehicle t;
            Predict.f_distance_km := Predict.distance t;
            Predict.f_weather_condition := Predict.weather t |}.
Proof.
  unfold Predict.predict_with_breakdown. intros Hp.
  apply bind_ok_inv in Hp as (out1 & base & out2 & Hbase & Hp & ->).
  destruct input as [params |]; [| discriminate].
  apply bind_ok_inv in Hp as (out3 & t & out4 & Ht & Hp & ->).
  apply lift_ok_inv in Ht as [Ht ->].
  injection Hp as <- <-. cbn. rewrite !app_nil_r.
  exists params, t. auto.
Qed.



(** ** Fallback values of the breakdown *)

Lemma predict_raises_value_error (self : Predict.DeliveryTimePredictor)
      (input : Predict.input_data) (out : list string) (e : exn) :
  Predict.predict self input = (out, Raise e) -> exists msg, e = ValueError msg.
Proof.
  unfold Predict.predict.
  destruct (Predict.model_artifacts self) as [art |];
    [| intros [= _ <-]; eauto].
  unfold Predict.wrap_failure.
  destruct (Predict.bind _ _) as [o [r | e']]; [discriminate |].
  intros [= _ <-]. eauto.
Qed.

(** C10 (the code against the specification).  For every predictor
    and every input record that omits [distance_km] or
    [delivery_person_rating], [predict_with_breakdown] fails with the
    [ValueError] of [predict]: the fallback values 3 and 4 are never
    used. *)
Theorem C10_absent_distance_or_rating_fails
        (self : Predict.DeliveryTimePredictor) (d : Predict.order_input) :
  Predict.in_distance_km d = None
  \/ Predict.in_delivery_person_rating d = None ->
  exists out msg,
    Predict.predict_with_breakdown self (Predict.InDict d)
    = (out, Raise (ValueError msg)).
Proof.
  intros Habsent. unfold Predict.predict_with_breakdown.
  destruct (Predict.predict self (Predict.InDict d)) as [out [r | e]] eqn:Hp.
  - exfalso. apply predict_needs in Hp as [[dist Hd] [rat Hr]].
    destruct Habsent; congruence.
  - destruct (predict_raises_value_error _ _ _ _ Hp) as [msg ->].
    exists out, msg. reflexivity.
Qed.

(** The fallbacks that are used: on a well-shaped bundle, for an input
    with a distance and a rating (the rating not being [-5/4]), the
    breakdown is computed whatever else is left out; an absent
    [preparation_time] counts as 15, an absent vehicle as ["bike"], an
    absent weather as ["clear"], a weather outside the table has no delay,
    and the factors echo the values used. *)
Lemma breakdown_fallbacks (art : Predict.artifacts) (path : string)
      (d : Predict.order_input) (dist rat : Q) :
  Predict.trained_shape art = true ->
  Predict.in_distance_km d = Some dist ->
  Predict.in_delivery_person_rating d = Some rat ->
  ~ rat == - (5 # 4) ->
  let self := {| Predict.model_path := path;
                 Predict.model_artifacts := Some art |} in
  let vehicle := default "bike" (Predict.in_vehicle_type d) in
  let weather := default "clear" (Predict.in_weather_condition d) in
  exists out res,
    Predict.predict_with_breakdown self (Predict.InDict d) = (out, Ok res)
    /\ Predict.b_preparation_time (Predict.result_breakdown res)
       = Num.py_round (default 15 (Predict.in_preparation_time d))
    /\ Predict.b_travel_time (Predict.result_breakdown res)
       = Num.py_round (dist * Predict.base_speed_of vehicle
                       / Predict.efficiency_of rat)
    /\ (weather ∉ ["clear"; "cloudy"; "light_rain"; "heavy_rain"; "storm"] ->
        Predict.b_weather_delay (Predict.result_breakdown res) = 0%Z)
    /\ Predict.result_factors res
       = {| Predict.f_delivery_person_rating := rat;
            Predict.f_vehicle_type := vehicle;
            Predict.f_distance_km := dist;
            Predict.f_weather_condition := weather |}.
Proof.
  intros Hshape Hd Hr Heff self vehicle weather.
  destruct (predict_succeeds art path d dist rat Hshape Hd Hr)
    as (out & _ & _ & r & _ & _ & _ & Hpred).
  fold self in Hpred.
  destruct (breakdown_terms_total d (Predict.estimated_time r)) as [t Ht].
  { rewrite Hr. cbn [Predict.params_get default].
    unfold Predict.efficiency_of. now rewrite efficiency_zero_iff. }
  exists out. eexists. split.
  { unfold Predict.predict_with_breakdown.
    rewrite (bind_ok _ _ out r Hpred), Ht, bind_lift_ok.
    cbn [Predict.ret fst snd]. now rewrite app_nil_r. }
  apply breakdown_terms_ok_inv in Ht
    as (Hprep & Hdist & Hrat & Hveh & Hwea & _ & Htravel & Hdelay & _).
  unfold Predict.params_get in *. rewrite Hd in Hdist. rewrite Hr in Hrat.
  cbn [default] in Hdist, Hrat.
  cbn [Predict.result_breakdown Predict.result_factors
       Predict.b_preparation_time Predict.b_travel_time
       Predict.b_weather_delay].
  split; [now rewrite Hprep |].
  split; [now rewrite Htravel, Hdist, Hrat, Hveh |].
  split.
  - intros Hw. rewrite py_round_inject_Z, Hdelay, Hwea.
    now apply weather_delay_default.
  - now rewrite Hdist, Hrat, Hveh, Hwea.
Qed.

(** * The properties on the sample orders *)

Section Samples.
Import Example.

(** The sample bundle has the shape of a trained one. *)
Lemma example_artifacts_shape : Predict.trained_shape example_artifacts = true.
Proof. vm_compute. reflexivity. Qed.



(** C3 at the failing input: the first sample order without its
    distance. *)
Lemma C3_witness :
  exists out e,
    Predict.preprocess_input loaded (Predict.InDict order1_without_distance)
    = (out, Raise e).
Proof.
  apply C3_absent_numeric_column_raises. left. reflexivity.
Defined.

(** What the predictor does there: the [KeyError] of the engineered
    feature, wrapped by [predict]; the same without the rating. *)
Lemma absent_numeric_column_evaluated :
  Predict.preprocess_input loaded (Predict.InDict order1_without_distance)
  = ([], Raise (KeyError "distance_km"))
  /\ Predict.predict loaded (Predict.InDict order1_without_distance)
     = ([], Raise (ValueError "Prediction failed: 'distance_km'"))
  /\ Predict.preprocess_input loaded (Predict.InDict order1_without_rating)
     = ([], Raise (KeyError "delivery_person_rating"))
  /\ Predict.predict_with_breakdown loaded
       (Predict.InDict order1_without_distance)
     = ([], Raise (ValueError "Prediction failed: 'distance_km'"))
  /\ Predict.predict_with_breakdown loaded
       (Predict.InDict order1_without_rating)
     = ([], Raise (ValueError "Prediction failed: 'delivery_person_rating'")).
Proof. repeat split; vm_compute; reflexivity. Qed.

(** The columns that are default-filled: the sparse order gets 0 for
    its preparation time and for its five encoded columns. *)
Lemma sparse_order_evaluated :
  Predict.preprocess_input loaded (Predict.InDict sparse_order)
  = ([], Ok [Predict.VNum (42 # 10); Predict.VNum (35 # 10); Predict.VNum 0;
             Predict.VNum 0; Predict.VNum 0; Predict.VNum 0; Predict.VNum 0;
             Predict.VNum 0;
             Predict.VNum ((35 # 10) * (35 # 10));
             Predict.VNum ((42 # 10) * (35 # 10))]).
Proof. vm_compute. reflexivity. Qed.


(** The drone order evaluated: two warnings, both codes 0. *)
Lemma drone_order_evaluated :
  Predict.preprocess_input loaded (Predict.InDict drone_order)
  = (["Warning: Unseen category in vehicle_type. Using default encoding.";
      "Warning: Unseen category in weather_condition. Using default encoding."],
     Ok [Predict.VNum (42 # 10); Predict.VNum (35 # 10); Predict.VNum 15;
         Predict.VNum 0; Predict.VNum 1; Predict.VNum 0; Predict.VNum 1;
         Predict.VNum 0;
         Predict.VNum ((35 # 10) * (35 # 10));
         Predict.VNum ((42 # 10) * (35 # 10))]).
Proof. vm_compute. reflexivity. Qed.


Lemma order1_breakdown_evaluated :
  exists base,
    Predict.predict_with_breakdown loaded (Predict.InDict order1)
    = ([], Ok {| Predict.base_prediction := base;
                 Predict.result_breakdown :=
                   {| Predict.b_preparation_time := 15;
                      Predict.b_travel_time := 14;
                      Predict.b_weather_delay := 0;
                      Predict.b_traffic_and_other := 2 |};
                 Predict.result_factors :=
                   {| Predict.f_delivery_person_rating := 42 # 10;
                      Predict.f_vehicle_type := "bike";
                      Predict.f_distance_km := 35 # 10;
                      Predict.f_weather_condition := "clear" |} |}).
Proof. eexists. vm_compute. reflexivity. Qed.




(** The floor at work: with a noise of -30 the total would be about 3
    minutes, and the label is 10. *)
Lemma floor_evaluated : Train.delivery_time_of_row row1 (- 30) = Ok 10.
Proof. vm_compute. reflexivity. Qed.

(** C10 at the failing input. *)
Lemma C10_witness :
  exists out msg,
    Predict.predict_with_breakdown loaded
      (Predict.InDict order1_without_distance)
    = (out, Raise (ValueError msg)).
Proof.
  apply C10_absent_distance_or_rating_fails. left. reflexivity.
Defined.

(** The fallbacks at work on the sparse order: 15 minutes of
    preparation, a bike, clear weather. *)
Lemma sparse_order_breakdown_evaluated :
  exists base,
    Predict.predict_with_breakdown loaded (Predict.InDict sparse_order)
    = ([], Ok {| Predict.base_prediction := base;
                 Predict.result_breakdown :=
                   {| Predict.b_preparation_time := 15;
                      Predict.b_travel_time := 14;
                      Predict.b_weather_delay := 0;
                      Predict.b_traffic_and_other := 2 |};
                 Predict.result_factors :=
                   {| Predict.f_delivery_person_rating := 42 # 10;
                      Predict.f_vehicle_type := "bike";
                      Predict.f_distance_km := 35 # 10;
                      Predict.f_weather_condition := "clear" |} |}).
Proof. eexists. vm_compute. reflexivity. Qed.

(** The generator on the stand-in random state: four records, the same
    from any starting state, all within the ranges of C8. *)
Lemma generator_evaluated :
  length (fst (Train.generate_sample_data 4 0%Z)) = 4%nat
  /\ Train.generate_sample_data 4 0%Z = Train.generate_sample_data 4 99%Z
  /\ map Train.distance_km (fst (Train.generate_sample_data 4 0%Z))
     = [7254 # 1000; 6615 # 1000; 4788 # 1000; 2997 # 1000].
Proof. repeat split; vm_compute; reflexivity. Qed.

End Samples.

(** * Further properties of the predictor *)

(** ** The feature vector *)

(** Whatever the bundle and the input, a feature vector that is returned
    has one entry per feature column of the bundle. *)
Theorem preprocess_input_column_count (self : Predict.DeliveryTimePredictor)
        (art : Predict.artifacts) (d : Predict.order_input)
        (out : list string) (X : list Predict.value) :
  Predict.model_artifacts self = Some art ->
  Predict.preprocess_input self (Predict.InDict d) = (out, Ok X) ->
  length X = length (Predict.feature_columns art).
Proof.
  unfold Predict.preprocess_input. intros -> Hp.
  apply bind_ok_inv in Hp as (out1 & df & out2 & _ & Hsel & _).
  apply lift_ok_inv in Hsel as [Hsel _].
  apply select_Forall2, Forall2_length in Hsel. now rewrite Hsel.
Qed.

(** Every line the encoding loop prints is the warning of a column that
    is present, has an encoder, and whose value the encoder does not
    know. *)
Lemma encode_categoricals_output (encoders : gmap string Predict.LabelEncoder)
      (cols : list string) (df df' : gmap string Predict.value)
      (out : list string) :
  (forall c c', c ∈ cols -> c' ∈ cols -> c <> c' ++ "_encoded") ->
  Predict.encode_categoricals encoders cols df = (out, Ok df') ->
  out = Predict.unseen_warning
        <$> List.filter
              (fun col =>
                 match df !! col, encoders !! col with
                 | Some (Predict.VStr s), Some le =>
                     match Predict.index_of s (Predict.classes_ le) with
                     | Some _ => false
                     | None => true
                     end
                 | Some (Predict.VNum _), Some _ => true
                 | _, _ => false
                 end) cols.
Proof.
  revert df out. induction cols as [| a cols IH]; intros df out Hnames Henc.
  - now injection Henc as <- _.
  - cbn [Predict.encode_categoricals] in Henc.
    apply bind_ok_inv in Henc as (out1 & df1 & out2 & H1 & H2 & ->).
    assert (forall c, c ∈ cols -> df1 !! c = df !! c) as Hraw.
    { intros c Hc. apply (encode_col_keeps _ _ _ _ _ _ H1).
      apply Hnames; [now right | left]. }
    apply IH in H2; [| intros c c' Hc Hc'; apply Hnames; now right].
    assert (List.filter
              (fun col =>
                 match df1 !! col, encoders !! col with
                 | Some (Predict.VStr s), Some le =>
                     match Predict.index_of s (Predict.classes_ le) with
                     | Some _ => false
                     | None => true
                     end
                 | Some (Predict.VNum _), Some _ => true
                 | _, _ => false
                 end) cols
            = List.filter
                (fun col =>
                   match df !! col, encoders !! col with
                   | Some (Predict.VStr s), Some le =>
                       match Predict.index_of s (Predict.classes_ le) with
                       | Some _ => false
                       | None => true
                       end
                   | Some (Predict.VNum _), Some _ => true
                   | _, _ => false
                   end) cols) as Hsame.
    { apply List.filter_ext_in. intros c Hc.
      rewrite Hraw by now apply list_elem_of_In. reflexivity. }
    rewrite Hsame in H2. subst out2. cbn [List.filter].
    unfold Predict.encode_col, Predict.getitem in H1.
    destruct (df !! a) as [v |]; [| now injection H1 as <- _].
    destruct (encoders !! a) as [le |]; cbn [rbind] in H1; [| discriminate].
    unfold Predict.le_transform in H1. destruct v as [q | s].
    + now injection H1 as <- _.
    + destruct (Predict.index_of s (Predict.classes_ le));
        now injection H1 as <- _.
Qed.

Lemma preprocess_input_features (art : Predict.artifacts) (path : string)
      (d : Predict.order_input) (dist rat : Q) :
  Predict.feature_columns art = Train.feature_cols ->
  (forall c, c ∈ Predict.categorical_cols ->
             is_Some (Predict.label_encoders art !! c)) ->
  Predict.in_distance_km d = Some dist ->
  Predict.in_delivery_person_rating d = Some rat ->
  Predict.preprocess_input
    {| Predict.model_path := path; Predict.model_artifacts := Some art |}
    (Predict.InDict d)
  = (Predict.unseen_warning
       <$> Layout.unseen_fields (Predict.label_encoders art) d,
     Ok (Predict.VNum
           <$> Layout.features (Predict.label_encoders art) d dist rat)).
Proof.
  intros Hcols Henc Hd Hr.
  destruct (prepare_frame_ok art d dist rat Henc Hd Hr)
    as (out & df & Hframe & Hdist & Hrat & Hsq & Hint & Hprep
        & Hseen & Hzero & Hall & _).
  destruct (select_total df (Predict.feature_columns art) Hall) as [X HX].
  assert (Predict.preprocess_input
            {| Predict.model_path := path;
               Predict.model_artifacts := Some art |} (Predict.InDict d)
          = (out, Ok X)) as Hpre.
  { unfold Predict.preprocess_input. cbn [Predict.model_artifacts].
    rewrite (bind_ok _ _ out df Hframe), HX.
    cbn [Predict.lift fst snd]. now rewrite app_nil_r. }
  rewrite Hpre. f_equal.
  - (* the warnings *)
    unfold Predict.prepare_frame in Hframe.
    apply bind_ok_inv in Hframe as (out1 & df1 & out2 & H1 & H2 & ->).
    apply bind_ok_inv in H2 as (out3 & df2 & out4 & H3 & H4 & ->).
    apply lift_ok_inv in H3 as [_ ->]. injection H4 as <- _.
    rewrite !app_nil_r.
    rewrite (encode_categoricals_output _ _ _ _ _ categorical_not_encoded H1).
    unfold Layout.unseen_fields. f_equal.
    apply List.filter_ext_in. intros c Hc. apply list_elem_of_In in Hc.
    destruct (Predict.to_frame d !! c) as [v |] eqn:Hv; [| reflexivity].
    destruct (to_frame_categorical d c v Hc Hv) as [s ->]. reflexivity.
  - (* the features *)
    f_equal.
    assert (forall c field,
               c ∈ Predict.categorical_cols ->
               Predict.to_frame d !! c = Predict.VStr <$> field ->
               df !! (c ++ "_encoded")
               = Some (Predict.VNum
                         (Layout.code_of (Predict.label_encoders art) c field)))
      as Hcode.
    { intros c field Hc Hfield. unfold Layout.code_of.
      destruct field as [s |]; cbn [fmap option_fmap option_map] in Hfield.
      - destruct (Henc c Hc) as [le Hle]. rewrite Hle.
        specialize (Hseen c s le Hc Hfield Hle).
        destruct (Predict.index_of s (Predict.classes_ le));
          [exact Hseen | apply Hseen].
      - apply Hzero; [exact Hc | exact Hfield |].
        rewrite Hcols. unfold Predict.categorical_cols in Hc.
        unfold Train.feature_cols. name_cases Hc; name_in. }
    assert (df !! "preparation_time"
            = Some (Predict.VNum (default 0 (Predict.in_preparation_time d))))
      as Hprep'.
    { rewrite Hprep. destruct (Predict.in_preparation_time d); [reflexivity |].
      rewrite Hcols.
      destruct (decide ("preparation_time" ∈ Train.feature_cols)) as [_ | Hn];
        [reflexivity | exfalso; apply Hn; unfold Train.feature_cols; name_in]. }
    apply select_Forall2 in HX. rewrite Hcols in HX.
    unfold Train.feature_cols in HX.
    repeat match goal with
           | H : Forall2 _ (_ :: _) _ |- _ =>
               let v := fresh "v" in
               let Hv := fresh "Hv" in
               apply Forall2_cons_inv_l in H as (v & ? & Hv & H & ->)
           end.
    apply Forall2_nil_inv_l in HX as ->.
    pose proof (Hcode "vehicle_type" (Predict.in_vehicle_type d)
                      ltac:(unfold Predict.categorical_cols; name_in)
                      (to_frame_vehicle d)) as Hc1.
    pose proof (Hcode "order_type" (Predict.in_order_type d)
                      ltac:(unfold Predict.categorical_cols; name_in)
                      (to_frame_order_type d)) as Hc2.
    pose proof (Hcode "weather_condition" (Predict.in_weather_condition d)
                      ltac:(unfold Predict.categorical_cols; name_in)
                      (to_frame_weather d)) as Hc3.
    pose proof (Hcode "time_of_day" (Predict.in_time_of_day d)
                      ltac:(unfold Predict.categorical_cols; name_in)
                      (to_frame_time_of_day d)) as Hc4.
    pose proof (Hcode "day_of_week" (Predict.in_day_of_week d)
                      ltac:(unfold Predict.categorical_cols; name_in)
                      (to_frame_day_of_week d)) as Hc5.
    change ("vehicle_type" ++ "_encoded") with "vehicle_type_encoded" in Hc1.
    change ("order_type" ++ "_encoded") with "order_type_encoded" in Hc2.
    change ("weather_condition" ++ "_encoded")
      with "weather_condition_encoded" in Hc3.
    change ("time_of_day" ++ "_encoded") with "time_of_day_encoded" in Hc4.
    change ("day_of_week" ++ "_encoded") with "day_of_week_encoded" in Hc5.
    unfold Layout.features. cbn [fmap list_fmap].
    congruence.
Qed.

(** On a well-shaped bundle, for an input that has a distance and a
    rating, [preprocess_input] returns the ten features in the order of
    training -- rating, distance, preparation time (0 when absent), the
    five codes (0 when the field is absent or its value unknown), the
    squared distance and the rating-distance product -- and prints one
    warning per field with an unknown value, in the order of the
    categorical columns, and nothing else. *)
Theorem preprocess_input_closed_form (art : Predict.artifacts) (path : string)
        (d : Predict.order_input) (dist rat : Q) :
  Predict.trained_shape art = true ->
  Predict.in_distance_km d = Some dist ->
  Predict.in_delivery_person_rating d = Some rat ->
  Predict.preprocess_input
    {| Predict.model_path := path; Predict.model_artifacts := Some art |}
    (Predict.InDict d)
  = (Predict.unseen_warning
       <$> Layout.unseen_fields (Predict.label_encoders art) d,
     Ok (Predict.VNum
           <$> Layout.features (Predict.label_encoders art) d dist rat)).
Proof.
  intros Hshape. apply trained_shape_spec in Hshape as (Hcols & Henc & _).
  now apply preprocess_input_features.
Qed.

(** ** Failures of [predict] *)

(** [predict] raises nothing but a [ValueError]: the "model not loaded"
    one, with nothing printed, when there is no bundle, and otherwise the
    exception of the encoding, the scaling or the inference wrapped as
    ["Prediction failed: " ++ str(e)]. *)
Theorem predict_failure_wrapped (self : Predict.DeliveryTimePredictor)
        (input : Predict.input_data) (out : list string) (e : exn) :
  Predict.predict self input = (out, Raise e) ->
  (Predict.model_artifacts self = None
   /\ out = []
   /\ e = ValueError "Model not loaded. Cannot make predictions.")
  \/ (exists art cause,
        Predict.model_artifacts self = Some art
        /\ e = ValueError ("Prediction failed: " ++ Predict.str_exn cause)).
Proof.
  unfold Predict.predict.
  destruct (Predict.model_artifacts self) as [art |].
  - intros Hp. right. exists art. unfold Predict.wrap_failure in Hp.
    destruct (Predict.bind _ _) as [o [r | cause]]; [discriminate |].
    injection Hp as _ <-. eauto.
  - intros [= <- <-]. left. auto.
Qed.


(** ** Failures of [predict_with_breakdown] *)

(** At the rating [-5/4] the efficiency of the breakdown is zero: the
    prediction is made, and then the division raises a
    [ZeroDivisionError] that nothing wraps. *)
Theorem breakdown_zero_efficiency_raises (art : Predict.artifacts)
        (path : string) (d : Predict.order_input) (dist rat : Q) :
  Predict.trained_shape art = true ->
  Predict.in_distance_km d = Some dist ->
  Predict.in_delivery_person_rating d = Some rat ->
  rat == - (5 # 4) ->
  let self := {| Predict.model_path := path;
                 Predict.model_artifacts := Some art |} in
  exists out r,
    Predict.predict self (Predict.InDict d) = (out, Ok r)
    /\ Predict.predict_with_breakdown self (Predict.InDict d)
       = (out, Raise ZeroDivisionError).
Proof.
  intros Hshape Hd Hr Hrat self.
  destruct (predict_succeeds art path d dist rat Hshape Hd Hr)
    as (out & _ & _ & r & _ & _ & _ & Hp).
  fold self in Hp. exists out, r. split; [exact Hp |].
  unfold Predict.predict_with_breakdown.
  rewrite (bind_ok _ _ out r Hp).
  unfold Predict.breakdown_terms. rewrite Hr.
  cbn [Predict.params_get default].
  rewrite py_div_zero.
  - cbn [Predict.lift Predict.bind fst snd]. now rewrite app_nil_r.
  - unfold Predict.efficiency_of. now apply efficiency_zero_iff.
Qed.


(** ** The breakdown adds up *)

(** The displayed components never fall short of the estimate by more
    than a minute and a half (three roundings), and when a residual is
    displayed they are within a minute and a half of it: the residual
    then makes up exactly what the formula leaves unexplained. *)
Theorem breakdown_adds_up (self : Predict.DeliveryTimePredictor)
        (input : Predict.input_data) (out : list string)
        (res : Predict.breakdown_result) :
  Predict.predict_with_breakdown self input = (out, Ok res) ->
  let b := Predict.result_breakdown res in
  let estimate := Predict.estimated_time (Predict.base_prediction res) in
  let shown :=
    inject_Z (Predict.b_preparation_time b + Predict.b_travel_time b
              + Predict.b_weather_delay b + Predict.b_traffic_and_other b) in
  estimate - (3 # 2) <= shown
  /\ ((0 < Predict.b_traffic_and_other b)%Z -> shown <= estimate + (3 # 2)).
Proof.
  intros Hp b estimate shown.
  apply predict_with_breakdown_ok_inv in Hp
    as (params & t & _ & _ & Ht & Hb & _).
  apply breakdown_terms_ok_inv in Ht as (_ & _ & _ & _ & _ & _ & _ & _ & Hrem).
  fold estimate in Hrem.
  subst shown b. rewrite Hb.
  cbn [Predict.b_preparation_time Predict.b_travel_time
       Predict.b_weather_delay Predict.b_traffic_and_other].
  rewrite py_round_inject_Z, !inject_Z_plus.
  pose proof (py_round_nearest (Predict.prep_time t)) as H1.
  pose proof (py_round_nearest (Predict.travel_time t)) as H2.
  pose proof (py_round_nearest (Predict.remaining_time t)) as H3.
  apply Qabs_Qle_condition in H1, H2, H3.
  pose proof (py_max_lower_r 0 (estimate - Predict.prep_time t
                                - Predict.travel_time t
                                - inject_Z (Predict.weather_delay t))) as Hge.
  rewrite <- Hrem in Hge.
  split; [lra |].
  intros Hpos.
  assert (0 < Predict.remaining_time t) as Hrpos.
  { apply Z.le_succ_l in Hpos. rewrite Zle_Qle in Hpos.
    change (inject_Z (Z.succ 0)) with 1 in Hpos. lra. }
  assert (Predict.remaining_time t
          == estimate - Predict.prep_time t - Predict.travel_time t
             - inject_Z (Predict.weather_delay t)) as Hexact.
  { rewrite Hrem in Hrpos |- *. unfold Num.py_max in *.
    destruct (Num.Qlt_bool 0 _); [reflexivity | lra]. }
  lra.
Qed.

(** ** The spread and the confidence *)











(** ** A bundle that lacks an encoder *)

Lemma encode_categoricals_missing_encoder
      (encoders : gmap string Predict.LabelEncoder) (cols : list string)
      (df : gmap string Predict.value) (c : string) (v : Predict.value) :
  (forall c c', c ∈ cols -> c' ∈ cols -> c <> c' ++ "_encoded") ->
  c ∈ cols -> df !! c = Some v -> encoders !! c = None ->
  exists out c',
    Predict.encode_categoricals encoders cols df = (out, Raise (KeyError c'))
    /\ c' ∈ cols /\ encoders !! c' = None.
Proof.
  revert df. induction cols as [| a cols IH]; intros df Hnames Hc Hv Hnone.
  - now apply not_elem_of_nil in Hc.
  - cbn [Predict.encode_categoricals].
    destruct (Predict.encode_col encoders a df) as [out1 [df1 | e]] eqn:H1.
    + assert (c ∈ cols) as Hin.
      { apply elem_of_cons in Hc as [-> | Hc]; [| exact Hc]. exfalso.
        unfold Predict.encode_col, Predict.getitem in H1.
        rewrite Hv, Hnone in H1. discriminate. }
      destruct (IH df1) as (out2 & c' & H2 & Hc' & Hn').
      * intros x y Hx Hy. apply Hnames; now right.
      * exact Hin.
      * rewrite (encode_col_keeps _ _ _ _ _ _ H1); [exact Hv |].
        apply Hnames; [now right | left].
      * exact Hnone.
      * exists (app out1 out2), c'.
        unfold Predict.bind. rewrite H2.
        split; [reflexivity |]. split; [now right | exact Hn'].
    + exists out1. unfold Predict.bind.
      unfold Predict.encode_col, Predict.getitem in H1.
      destruct (df !! a) as [w |]; [| discriminate].
      destruct (encoders !! a) as [le |] eqn:Ha; cbn [rbind] in H1.
      * destruct (Predict.le_transform le w) as [code | e'] eqn:Ht;
          [discriminate |].
        rewrite (le_transform_raises _ _ _ Ht) in H1. discriminate.
      * injection H1 as <- <-. exists a.
        split; [reflexivity |]. split; [left | exact Ha].
Qed.

(** An unknown category is tolerated, a missing encoder is not: when the
    bundle has no encoder for a categorical field the input carries,
    [preprocess_input] raises the [KeyError] of such a field, which the
    loop's [except ValueError] does not catch, and [predict] reports it
    as a failed prediction. *)
Theorem missing_encoder_raises (art : Predict.artifacts) (path : string)
        (d : Predict.order_input) (c : string) (v : Predict.value) :
  c ∈ Predict.categorical_cols ->
  Predict.to_frame d !! c = Some v ->
  Predict.label_encoders art !! c = None ->
  let self := {| Predict.model_path := path;
                 Predict.model_artifacts := Some art |} in
  exists out c',
    Predict.label_encoders art !! c' = None
    /\ Predict.preprocess_input self (Predict.InDict d)
       = (out, Raise (KeyError c'))
    /\ Predict.predict self (Predict.InDict d)
       = (out, Raise (ValueError ("Prediction failed: '" ++ c' ++ "'"))).
Proof.
  intros Hc Hv Hnone self.
  destruct (encode_categoricals_missing_encoder
              (Predict.label_encoders art) Predict.categorical_cols
              (Predict.to_frame d) c v categorical_not_encoded Hc Hv Hnone)
    as (out & c' & Henc & _ & Hn').
  assert (Predict.preprocess_input self (Predict.InDict d)
          = (out, Raise (KeyError c'))) as Hpre.
  { unfold Predict.preprocess_input, Predict.prepare_frame.
    cbn [self Predict.model_artifacts].
    now rewrite (bind_raise _ _ out _ Henc). }
  exists out, c'. split; [exact Hn' |]. split; [exact Hpre |].
  unfold Predict.predict. cbn [self Predict.model_artifacts]. fold self.
  rewrite (bind_raise _ _ out _ Hpre). reflexivity.
Qed.

(** ** Model information *)

(** [get_model_info] answers with the error mapping exactly when no
    bundle is loaded; for a loaded bundle it reports the bundle's feature
    columns and at most five importances, the first five of those
    stored, in their stored order. *)
Theorem get_model_info_report (self : Predict.DeliveryTimePredictor)
        (meta : Info.metadata) :
  match Info.get_model_info self meta with
  | inl error =>
      Predict.model_artifacts self = None /\ error = "Model not loaded"
  | inr info =>
      exists art,
        Predict.model_artifacts self = Some art
        /\ Info.model_loaded info = true
        /\ Info.info_features info = Predict.feature_columns art
        /\ (length (Info.info_feature_importance info) <= 5)%nat
        /\ forall stored,
            Info.feature_importance meta = Some stored ->
            Info.info_feature_importance info = take 5 stored
            /\ (forall i, (i < 5)%nat ->
                          Info.info_feature_importance info !! i = stored !! i)
            /\ length (Info.info_feature_importance info)
               = Nat.min 5 (length stored)
  end.
Proof.
  unfold Info.get_model_info.
  destruct (Predict.model_artifacts self) as [art |]; [| auto].
  exists art. cbn [Info.model_loaded Info.info_features
                   Info.info_feature_importance].
  repeat split; auto.
  - rewrite length_take. lia.
  - now rewrite H.
  - rewrite H. cbn [default]. now apply lookup_take_lt.
  - rewrite H. cbn [default]. apply length_take.
Qed.

(** * Further properties of the training script *)

(** ** Labels for a whole frame *)

Lemma total_before_noise_raises (row : Train.order) (e : exn) :
  Train.total_before_noise row = Raise e -> e = ZeroDivisionError.
Proof.
  unfold Train.total_before_noise.
  destruct (Num.py_div _ _); [discriminate | now intros [= <-]].
Qed.

Lemma total_before_noise_zero_efficiency (row : Train.order) :
  Train.delivery_person_rating row == - (5 # 4) ->
  Train.total_before_noise row = Raise ZeroDivisionError.
Proof.
  intros Hr. unfold Train.total_before_noise.
  rewrite py_div_zero; [reflexivity |]. now apply efficiency_zero_iff.
Qed.

(** One row with the rating [-5/4] anywhere in the frame loses every
    label: the loop raises [ZeroDivisionError] and returns nothing. *)
Theorem calculate_delivery_time_bad_row {rng : Type} `{Train.RandomState rng}
        (df : list Train.order) (s : rng) :
  Exists (fun row => Train.delivery_person_rating row == - (5 # 4)) df ->
  fst (Train.calculate_delivery_time df s) = Raise ZeroDivisionError.
Proof.
  revert s. induction df as [| row rest IH]; intros s Hbad.
  - inversion Hbad.
  - cbn [Train.calculate_delivery_time].
    destruct (Train.total_before_noise row) as [total | e] eqn:Hrow.
    + destruct (Train.normal 0 2 s) as [noise s1].
      assert (Exists (fun row => Train.delivery_person_rating row == - (5 # 4))
                     rest) as Hrest.
      { inversion Hbad as [? ? Hhere | ? ? Hlater]; subst; [| exact Hlater].
        rewrite (total_before_noise_zero_efficiency row Hhere) in Hrow.
        discriminate. }
      specialize (IH s1 Hrest).
      destruct (Train.calculate_delivery_time rest s1) as [r s2].
      cbn [fst] in *. now subst r.
    + cbn [fst]. now rewrite (total_before_noise_raises row e Hrow).
Qed.

(** ** Generated records and their labels *)

Lemma draws_Forall {rng A : Type} `{Train.RandomState rng}
      (draw : rng -> A * rng) (P : A -> Prop) (n : nat) (s : rng) :
  (forall s', P (fst (draw s'))) -> Forall P (fst (Train.draws draw n s)).
Proof.
  intros Hdraw. revert s. induction n as [| n IH]; intros s; [constructor |].
  cbn [Train.draws]. pose proof (Hdraw s) as Hx.
  destruct (draw s) as [x s1]. specialize (IH s1).
  destruct (Train.draws draw n s1) as [xs s2]. cbn [fst] in *.
  now constructor.
Qed.

(** A row of a frame built from columns of [n] entries takes each of its
    fields from the corresponding column. *)
Lemma DataFrame_Forall (n : nat) (d : Train.columns)
      (P : Train.order -> Prop) :
  (forall i, (i < n)%nat ->
             P {| Train.delivery_person_rating :=
                    nth i (Train.c_delivery_person_rating d) 0;
                  Train.distance_km := nth i (Train.c_distance_km d) 0;
                  Train.preparation_time :=
                    nth i (Train.c_preparation_time d) 0;
                  Train.vehicle_type := nth i (Train.c_vehicle_type d) "";
                  Train.order_type := nth i (Train.c_order_type d) "";
                  Train.weather_condition :=
                    nth i (Train.c_weather_condition d) "";
                  Train.time_of_day := nth i (Train.c_time_of_day d) "";
                  Train.day_of_week := nth i (Train.c_day_of_week d) "" |}) ->
  Forall P (Train.DataFrame n d).
Proof.
  intros HP. unfold Train.DataFrame. apply List.Forall_map, List.Forall_forall.
  intros i Hi. apply List.in_seq in Hi. apply HP. lia.
Qed.

Lemma nth_Forall {A : Type} (P : A -> Prop) (l : list A) (i : nat) (d : A) :
  Forall P l -> (i < length l)%nat -> P (nth i l d).
Proof.
  intros Hall Hi. rewrite List.Forall_forall in Hall.
  apply Hall. now apply List.nth_In.
Qed.

(** If numpy's samplers honour their ranges -- [uniform(1, 5)] stays
    within [1, 5] and [choice] returns one of its options -- every
    generated record is an Order Record of the schema: the rating is
    between 1 and 5 and each categorical field holds one of the values
    listed for it. *)
Theorem generated_records_in_schema {rng : Type} `{Train.RandomState rng}
        (n_samples : nat) (s0 : rng) :
  (forall s, 1 <= fst (Train.uniform 1 5 s) /\ fst (Train.uniform 1 5 s) <= 5) ->
  (forall options p s,
      options <> [] -> In (fst (Train.choice options p s)) options) ->
  Forall
    (fun r =>
       Spec.valid_rating r
       /\ In (Train.vehicle_type r) ["bike"; "bicycle"]
       /\ In (Train.order_type r) ["normal"; "delicate"]
       /\ In (Train.weather_condition r)
             ["clear"; "cloudy"; "light_rain"; "heavy_rain"; "storm"]
       /\ In (Train.time_of_day r) ["morning"; "afternoon"; "evening"; "night"]
       /\ In (Train.day_of_week r) ["weekday"; "weekend"])
    (fst (Train.generate_sample_data n_samples s0)).
Proof.
  intros Huniform Hchoice. unfold Train.generate_sample_data.
  repeat match goal with
         | |- context [Train.draws ?d ?n ?s] =>
             let Hlen := fresh "Hlen" in
             let Hall := fresh "Hall" in
             pose proof (draws_length d n s) as Hlen;
             first
               [ pose proof (draws_Forall d
                   (fun x => 1 <= x /\ x <= 5) n s Huniform) as Hall
               | match d with
                 | Train.choice ?options ?p =>
                     pose proof (draws_Forall d
                       (fun x => In x options) n s
                       (fun s' => Hchoice options p s' ltac:(discriminate)))
                       as Hall
                 end
               | idtac ];
             destruct (Train.draws d n s) as [? ?]
         end.
  cbn [fst] in *. rewrite !List.Forall_map.
  apply DataFrame_Forall. intros i Hi.
  cbn [Train.set_preparation_time Train.set_distance_km
       Train.delivery_person_rating Train.vehicle_type Train.order_type
       Train.weather_condition Train.time_of_day Train.day_of_week
       Train.c_delivery_person_rating Train.c_vehicle_type Train.c_order_type
       Train.c_weather_condition Train.c_time_of_day Train.c_day_of_week].
  unfold Spec.valid_rating. cbn [Train.delivery_person_rating].
  repeat split;
    match goal with
    | Hall : Forall _ ?l |- context [nth i ?l _] =>
        exact (nth_Forall _ l i _ Hall ltac:(lia))
    | Hall : Forall _ ?l |- context [nth i ?l _] =>
        apply (nth_Forall _ l i _ Hall ltac:(lia))
    end.
Qed.

Lemma generate_sample_data_length {rng : Type} `{Train.RandomState rng}
      (n_samples : nat) (s0 : rng) :
  length (fst (Train.generate_sample_data n_samples s0)) = n_samples.
Proof.
  unfold Train.generate_sample_data.
  repeat match goal with
         | |- context [Train.draws ?d ?n ?s] =>
             destruct (Train.draws d n s) as [? ?]
         end.
  cbn [fst]. now rewrite !List.length_map, DataFrame_length.
Qed.

(** For a frame of Order Records the loop of [calculate_delivery_time]
    raises nothing and returns one label per row, each at least 10. *)
Theorem labels_one_per_row_floored {rng : Type} `{Train.RandomState rng}
        (df : list Train.order) (s : rng) :
  Forall Spec.valid_rating df ->
  exists y, fst (Train.calculate_delivery_time df s) = Ok y
            /\ length y = length df
            /\ Forall (fun t => 10 <= t) y.
Proof. apply calculate_delivery_time_floor. Qed.

(** The ratings of a generated frame are the draws of [uniform(1, 5)]:
    the later column updates leave them alone. *)
Lemma generated_ratings_valid {rng : Type} `{Train.RandomState rng}
      (n_samples : nat) (s0 : rng) :
  (forall s, 1 <= fst (Train.uniform 1 5 s) /\ fst (Train.uniform 1 5 s) <= 5) ->
  Forall Spec.valid_rating (fst (Train.generate_sample_data n_samples s0)).
Proof.
  intros Huniform.
  unfold Train.generate_sample_data.
  pose proof (draws_length (Train.uniform 1 5) n_samples (Train.seed 42))
    as Hlen.
  pose proof (draws_Forall (Train.uniform 1 5)
                (fun x => 1 <= x /\ x <= 5) n_samples (Train.seed 42)
                Huniform) as Hall.
  repeat match goal with
         | |- context [Train.draws ?d ?n ?s] =>
             destruct (Train.draws d n s) as [? ?]
         end.
  cbn [fst] in *. rewrite !List.Forall_map.
  apply DataFrame_Forall. intros i Hi.
  unfold Spec.valid_rating.
  cbn [Train.set_preparation_time Train.set_distance_km
       Train.delivery_person_rating Train.c_delivery_person_rating].
  apply (nth_Forall _ _ i _ Hall). lia.
Qed.

(** If [uniform(1, 5)] stays within [1, 5], the labels of a generated
    frame are computed without an exception, whatever the other samplers
    return: one label per generated record, each at least 10. *)
Theorem generated_frame_has_labels {rng : Type} `{Train.RandomState rng}
        (n_samples : nat) (s0 : rng) :
  (forall s, 1 <= fst (Train.uniform 1 5 s) /\ fst (Train.uniform 1 5 s) <= 5) ->
  exists y,
    fst (Train.calculate_delivery_time
           (fst (Train.generate_sample_data n_samples s0))
           (snd (Train.generate_sample_data n_samples s0))) = Ok y
    /\ length y = n_samples
    /\ Forall (fun t => 10 <= t) y.
Proof.
  intros Huniform.
  pose proof (generated_ratings_valid n_samples s0 Huniform) as Hvalid.
  destruct (calculate_delivery_time_floor
              (fst (Train.generate_sample_data n_samples s0))
              (snd (Train.generate_sample_data n_samples s0)) Hvalid)
    as (y & Hy & Hlen & Hfloor).
  exists y. split; [exact Hy |]. split; [| exact Hfloor].
  rewrite Hlen. apply generate_sample_data_length.
Qed.

(** ** The order of category names *)

Lemma string_compare_refl (a : string) : String.compare a a = Eq.
Proof.
  pose proof (String.compare_antisym a a) as Hanti.
  destruct (String.compare a a); [reflexivity | discriminate | discriminate].
Qed.

Lemma string_ltb_irrefl (a : string) : String.ltb a a = false.
Proof. unfold String.ltb. now rewrite string_compare_refl. Qed.

Lemma string_ltb_iff (a b : string) :
  String.ltb a b = true <-> String.leb a b = true /\ a <> b.
Proof.
  unfold String.ltb, String.leb. split.
  - destruct (String.compare a b) eqn:E; try discriminate.
    intros _. split; [reflexivity |]. intros ->.
    rewrite string_compare_refl in E. discriminate.
  - intros [Hle Hne]. destruct (String.compare a b) eqn:E.
    + apply String.compare_eq_iff in E. contradiction.
    + reflexivity.
    + discriminate.
Qed.

Lemma string_leb_false_ltb (a b : string) :
  String.leb a b = false -> String.ltb b a = true.
Proof.
  unfold String.leb, String.ltb. rewrite (String.compare_antisym b a).
  destruct (String.compare a b); [discriminate | discriminate | reflexivity].
Qed.

Lemma string_leb_trans (a b c : string) :
  String.leb a b = true -> String.leb b c = true -> String.leb a c = true.
Proof.
  intros Hab Hbc. apply Is_true_true.
  change (String.le a c). transitivity b; apply Is_true_true; assumption.
Qed.

Lemma string_ltb_trans (a b c : string) :
  String.ltb a b = true -> String.ltb b c = true -> String.ltb a c = true.
Proof.
  rewrite !string_ltb_iff. intros [Hab Hne] [Hbc Hne'].
  split; [now apply (string_leb_trans a b c) |].
  intros ->. apply Hne. now apply String.leb_antisym.
Qed.

Lemma string_ltb_asym (a b : string) :
  String.ltb a b = true -> String.ltb b a = false.
Proof.
  intros Hab. destruct (String.ltb b a) eqn:Hba; [| reflexivity].
  pose proof (string_ltb_trans a b a Hab Hba) as Haa.
  rewrite string_ltb_irrefl in Haa. discriminate.
Qed.

(** ** [np.unique] and the fitted encoder *)

Lemma elem_of_insert_sorted (x s : string) (classes : list string) :
  x ∈ Features.insert_sorted s classes <-> x = s \/ x ∈ classes.
Proof.
  induction classes as [| c rest IH]; cbn [Features.insert_sorted].
  - rewrite list_elem_of_singleton, elem_of_nil. tauto.
  - destruct (String.eqb_spec s c) as [-> | Hne].
    + rewrite elem_of_cons. tauto.
    + destruct (String.leb s c).
      * rewrite elem_of_cons. tauto.
      * rewrite !elem_of_cons, IH. tauto.
Qed.

Lemma insert_sorted_sorted (s : string) (classes : list string) :
  StronglySorted (fun a b => String.ltb a b = true) classes ->
  StronglySorted (fun a b => String.ltb a b = true)
                 (Features.insert_sorted s classes).
Proof.
  induction 1 as [| c rest Hsorted IH Hc]; cbn [Features.insert_sorted].
  - repeat constructor.
  - destruct (String.eqb_spec s c) as [-> | Hne]; [now constructor |].
    destruct (String.leb s c) eqn:Hle.
    + assert (String.ltb s c = true) as Hlt by now apply string_ltb_iff.
      constructor; [now constructor |].
      constructor; [exact Hlt |].
      eapply List.Forall_impl; [| exact Hc].
      intros x Hx. now apply (string_ltb_trans s c x).
    + apply string_leb_false_ltb in Hle.
      constructor; [exact IH |].
      apply List.Forall_forall. intros x Hx.
      apply list_elem_of_In, elem_of_insert_sorted in Hx as [-> | Hx];
        [exact Hle |].
      rewrite List.Forall_forall in Hc. apply Hc. now apply list_elem_of_In.
Qed.

(** [np.unique] returns the values of the column, each once, in strictly
    increasing order. *)
Lemma np_unique_sorted (column : list string) :
  StronglySorted (fun a b => String.ltb a b = true)
                 (Features.np_unique column).
Proof.
  induction column as [| s column IH]; cbn [Features.np_unique fold_right].
  - constructor.
  - now apply insert_sorted_sorted.
Qed.

Lemma elem_of_np_unique (x : string) (column : list string) :
  x ∈ Features.np_unique column <-> x ∈ column.
Proof.
  induction column as [| s column IH]; cbn [Features.np_unique fold_right].
  - reflexivity.
  - fold (Features.np_unique column).
    rewrite elem_of_insert_sorted, elem_of_cons, IH. reflexivity.
Qed.

(** Among strictly increasing classes the rank of a class is its
    position, which is also where the predictor's lookup finds it. *)
Lemma rank_index_of (classes : list string) (s : string) :
  StronglySorted (fun a b => String.ltb a b = true) classes ->
  s ∈ classes ->
  Predict.index_of s classes = Some (Features.rank classes s)
  /\ classes !! Features.rank classes s = Some s.
Proof.
  induction 1 as [| c rest Hsorted IH Hc]; intros Hin.
  - now apply elem_of_nil in Hin.
  - unfold Features.rank. cbn [Predict.index_of List.filter].
    fold (Features.rank rest s).
    apply elem_of_cons in Hin as [-> | Hin].
    + rewrite String.eqb_refl, string_ltb_irrefl.
      assert (List.filter (fun x => String.ltb x c) rest = []) as Hnone.
      { clear IH Hsorted. induction Hc as [| x rest' Hx _ IHrest];
          [reflexivity |].
        cbn [List.filter]. now rewrite (string_ltb_asym c x Hx). }
      unfold Features.rank in *. rewrite Hnone. split; reflexivity.
    + assert (String.ltb c s = true) as Hlt.
      { rewrite List.Forall_forall in Hc. apply Hc. now apply list_elem_of_In. }
      rewrite Hlt. cbn [length].
      destruct (String.eqb_spec s c) as [-> | Hne].
      { rewrite string_ltb_irrefl in Hlt. discriminate. }
      destruct (IH Hin) as [Hidx Hlook].
      unfold Features.rank in *. rewrite Hidx. split; [reflexivity |].
      exact Hlook.
Qed.

(** The encoder fitted on a column knows exactly the values of that
    column: [transform] returns a code for a value of the column and
    raises the unseen-label [ValueError] for any other string. *)
Theorem fit_knows_exactly_its_column (column : list string) (s : string) :
  (exists code,
      Predict.le_transform (Features.fit column) (Predict.VStr s) = Ok code)
  <-> s ∈ column.
Proof.
  unfold Predict.le_transform, Features.fit. cbn [Predict.classes_].
  destruct (Predict.index_of s (Features.np_unique column)) as [i |] eqn:Hi.
  - split; [intros _ | eauto].
    apply elem_of_np_unique.
    destruct (decide (s ∈ Features.np_unique column)) as [Hin | Hnin];
      [exact Hin |].
    apply index_of_None in Hnin. congruence.
  - split; [intros [code [=]] |].
    intros Hin. apply index_of_None in Hi. exfalso. apply Hi.
    now apply elem_of_np_unique.
Qed.

(** [fit_transform] round trip: the codes column has one code per entry;
    the class stored at an entry's code is the entry's value, so distinct
    values get distinct codes; and the code is the one the predictor's
    [transform] gives the value later. *)
Theorem fit_transform_round_trip (column : list string) (i : nat)
        (s : string) :
  column !! i = Some s ->
  let le := fst (Features.fit_transform column) in
  let codes := snd (Features.fit_transform column) in
  exists code : nat,
    length codes = length column
    /\ codes !! i = Some (inject_Z (Z.of_nat code))
    /\ (code < length (Predict.classes_ le))%nat
    /\ Predict.classes_ le !! code = Some s
    /\ Predict.le_transform le (Predict.VStr s) = Ok (Z.of_nat code).
Proof.
  intros Hs le codes. subst le codes.
  unfold Features.fit_transform. cbn [fst snd Features.fit Predict.classes_].
  assert (s ∈ Features.np_unique column) as Hin.
  { apply elem_of_np_unique. apply list_elem_of_lookup. eauto. }
  destruct (rank_index_of _ s (np_unique_sorted column) Hin) as [Hidx Hlook].
  exists (Features.rank (Features.np_unique column) s).
  split; [apply List.length_map |].
  split.
  { change (map ?f column) with (f <$> column).
    now rewrite list_lookup_fmap, Hs. }
  split; [now apply lookup_lt_Some in Hlook |].
  split; [exact Hlook |].
  unfold Predict.le_transform, Features.fit. cbn [Predict.classes_].
  now rewrite Hidx.
Qed.

(** ** The features of training and of prediction *)

Lemma nth_map_lookup {A B : Type} (f : A -> B) (l : list A) (i : nat)
      (a : A) (d : B) :
  l !! i = Some a -> nth i (map f l) d = f a.
Proof.
  revert i. induction l as [| x l IH]; intros [| i] Hi; try discriminate.
  - now injection Hi as ->.
  - cbn [map nth]. now apply IH.
Qed.

Lemma fitted_code (column : list string) (s : string) :
  s ∈ column ->
  Predict.index_of s (Predict.classes_ (Features.fit column))
  = Some (Features.rank (Features.np_unique column) s).
Proof.
  intros Hin. unfold Features.fit. cbn [Predict.classes_].
  apply rank_index_of; [apply np_unique_sorted | now apply elem_of_np_unique].
Qed.

Lemma elem_of_map_lookup {A B : Type} (f : A -> B) (l : list A) (i : nat)
      (a : A) :
  l !! i = Some a -> f a ∈ map f l.
Proof.
  intros Hi. apply list_elem_of_In, List.in_map, list_elem_of_In.
  apply list_elem_of_lookup. eauto.
Qed.

(** The encoders [preprocess_features] returns: one per categorical
    column, fitted on that column of the frame. *)
Lemma preprocess_features_encoders (df : list Train.order) :
  let encoders := snd (Features.preprocess_features df) in
  encoders !! "vehicle_type"
  = Some (Features.fit (map Train.vehicle_type df))
  /\ encoders !! "order_type" = Some (Features.fit (map Train.order_type df))
  /\ encoders !! "weather_condition"
     = Some (Features.fit (map Train.weather_condition df))
  /\ encoders !! "time_of_day"
     = Some (Features.fit (map Train.time_of_day df))
  /\ encoders !! "day_of_week"
     = Some (Features.fit (map Train.day_of_week df)).
Proof.
  cbv beta iota zeta delta [Features.preprocess_features
                              Features.fit_transform snd].
  repeat split;
    repeat first [ rewrite lookup_insert_eq; reflexivity
                 | rewrite lookup_insert_ne by discriminate ].
Qed.

Lemma features_agree
        (df : list Train.order) (forest : Predict.RandomForestRegressor)
        (sc : Predict.StandardScaler) (path : string) (i : nat)
        (r : Train.order) :
  df !! i = Some r ->
  let X := fst (Features.preprocess_features df) in
  let bundle :=
    {| Predict.model := forest;
       Predict.scaler := sc;
       Predict.label_encoders := snd (Features.preprocess_features df);
       Predict.feature_columns := Train.feature_cols |} in
  exists x,
    length X = length df
    /\ X !! i = Some x
    /\ length x = length Train.feature_cols
    /\ Predict.preprocess_input
         {| Predict.model_path := path;
            Predict.model_artifacts := Some bundle |}
         (Predict.InDict (Features.to_dict r))
       = ([], Ok (Predict.VNum <$> x)).
Proof.
  intros Hr X bundle.
  destruct (preprocess_features_encoders df) as (Hv & Ho & Hw & Ht & Hd).
  assert (i < length df)%nat as Hi by now apply lookup_lt_Some in Hr.
  eexists. split; [| split; [| split]].
  - subst X.
    cbv beta iota zeta delta [Features.preprocess_features
                                Features.fit_transform fst].
    unfold Features.frame_rows. now rewrite List.length_map, List.length_seq.
  - subst X.
    cbv beta iota zeta delta [Features.preprocess_features
                                Features.fit_transform fst].
    unfold Features.frame_rows.
    change (map ?f (seq 0 (length df))) with (f <$> seq 0 (length df)).
    rewrite list_lookup_fmap, (lookup_seq_lt 0 (length df) i Hi).
    cbn [fmap option_fmap option_map map Nat.add].
    rewrite !List.map_map.
    rewrite !(nth_map_lookup _ df i r _ Hr). reflexivity.
  - reflexivity.
  - rewrite (preprocess_input_features bundle path (Features.to_dict r)
               (Train.distance_km r) (Train.delivery_person_rating r));
      [| reflexivity | | reflexivity | reflexivity].
    + cbn [Predict.label_encoders bundle].
      unfold Layout.unseen_fields, Layout.features, Layout.code_of,
        Predict.categorical_cols.
      cbn [List.filter].
      rewrite to_frame_vehicle, to_frame_order_type, to_frame_weather,
        to_frame_time_of_day, to_frame_day_of_week.
      cbn [Features.to_dict Predict.in_vehicle_type Predict.in_order_type
           Predict.in_weather_condition Predict.in_time_of_day
           Predict.in_day_of_week Predict.in_preparation_time
           fmap option_fmap option_map default].
      rewrite Hv, Ho, Hw, Ht, Hd.
      rewrite !fitted_code by (now apply (elem_of_map_lookup _ df i r)).
      reflexivity.
    + intros c Hc. cbn [Predict.label_encoders bundle].
      unfold Predict.categorical_cols in Hc.
      name_cases Hc; eauto.
Qed.

(** What training computes for a row is what prediction computes for the
    same record: for every row of the frame, [preprocess_input], run with
    the encoders and the feature columns of [preprocess_features] on the
    row's mapping, prints no warning and returns exactly the row of the
    training matrix (one row per record, ten features). *)
Theorem preprocess_features_agrees_with_predict
        (df : list Train.order) (forest : Predict.RandomForestRegressor)
        (sc : Predict.StandardScaler) (path : string) (i : nat)
        (r : Train.order) :
  df !! i = Some r ->
  let X := fst (Features.preprocess_features df) in
  let bundle :=
    {| Predict.model := forest;
       Predict.scaler := sc;
       Predict.label_encoders := snd (Features.preprocess_features df);
       Predict.feature_columns := Train.feature_cols |} in
  exists x,
    length X = length df
    /\ X !! i = Some x
    /\ length x = length Train.feature_cols
    /\ Predict.preprocess_input
         {| Predict.model_path := path;
            Predict.model_artifacts := Some bundle |}
         (Predict.InDict (Features.to_dict r))
       = ([], Ok (Predict.VNum <$> x)).
Proof. apply features_agree. Qed.

(** ** The bundle written by training *)

Lemma preprocess_features_rows (df : list Train.order) :
  length (fst (Features.preprocess_features df)) = length df
  /\ Forall (fun x => length x = 10%nat)
            (fst (Features.preprocess_features df)).
Proof.
  cbv beta iota zeta delta [Features.preprocess_features
                              Features.fit_transform fst].
  unfold Features.frame_rows. split.
  - now rewrite List.length_map, List.length_seq.
  - apply List.Forall_map, List.Forall_forall. intros i _. reflexivity.
Qed.

Lemma scaler_fit_shape (row : list Q) (rest : list (list Q)) :
  exists sc,
    Features.scaler_fit (row :: rest) = Ok sc
    /\ length (Predict.mean_ sc) = length row
    /\ length (Predict.scale_ sc) = length row
    /\ forallb (fun s => negb (Qeq_bool s 0)) (Predict.scale_ sc) = true.
Proof.
  eexists. split; [reflexivity |].
  cbn [Predict.mean_ Predict.scale_].
  rewrite !List.length_map, List.length_seq.
  split; [reflexivity |]. split; [reflexivity |].
  apply forallb_forall. intros s Hs.
  apply List.in_map_iff in Hs as (col & <- & _).
  destruct (Qeq_bool (Np.np_std col) 0) eqn:E; [reflexivity |].
  now rewrite E.
Qed.

(** If [uniform(1, 5)] stays within [1, 5] and the split hands back a
    non-empty training part made of rows of the matrix, [train_model]
    raises nothing; the bundle it writes has the shape the predictor
    relies on (the ten feature columns, an encoder for each categorical
    column, a scaler over ten features with no zero scale); and with
    that bundle [predict] returns a result, without a warning, for every
    record the training data was generated from. *)
Theorem train_model_bundle_serves_its_data {rng : Type}
        `{Train.RandomState rng}
        (train_test_split :
           list (list Q) -> list Q ->
           list (list Q) * list (list Q) * list Q * list Q)
        (fit_forest :
           list (list Np.npfloat) -> list Q -> Predict.RandomForestRegressor)
        (path : string) (s0 : rng) :
  (forall s, 1 <= fst (Train.uniform 1 5 s) /\ fst (Train.uniform 1 5 s) <= 5) ->
  (forall X y,
      X <> [] ->
      fst (fst (fst (train_test_split X y))) <> []
      /\ forall x, In x (fst (fst (fst (train_test_split X y)))) -> In x X) ->
  exists art,
    Features.train_model train_test_split fit_forest s0 = Ok art
    /\ Predict.trained_shape art = true
    /\ forall r,
        In r (fst (Train.generate_sample_data Features.n_training_samples s0)) ->
        exists res,
          Predict.predict
            {| Predict.model_path := path;
               Predict.model_artifacts := Some art |}
            (Predict.InDict (Features.to_dict r))
          = ([], Ok res).
Proof.
  intros Huniform Hsplit.
  unfold Features.train_model.
  destruct (calculate_delivery_time_floor
              (fst (Train.generate_sample_data Features.n_training_samples s0))
              (snd (Train.generate_sample_data Features.n_training_samples s0))
              (generated_ratings_valid Features.n_training_samples s0 Huniform))
    as (y & Hy & _ & _).
  pose proof (generate_sample_data_length Features.n_training_samples s0)
    as Hn.
  destruct (Train.generate_sample_data Features.n_training_samples s0)
    as [df s] eqn:Hgen.
  cbn [fst snd] in *. rewrite Hy. cbn [rbind].
  pose proof (preprocess_features_encoders df) as (Hv & Ho & Hw & Ht & Hd).
  pose proof (preprocess_features_rows df) as [HlenX Hrows].
  pose proof (fun forest sc i r => features_agree df forest sc path i r)
    as Hagree.
  destruct (Features.preprocess_features df) as [X encoders].
  cbn [fst snd] in *.
  assert (X <> []) as HX.
  { intros ->. cbn [length] in HlenX.
    unfold Features.n_training_samples in Hn. lia. }
  destruct (Hsplit X y HX) as [Hne Hsub].
  destruct (train_test_split X y) as [[[X_train X_test] y_train] y_test].
  cbn [fst] in Hne, Hsub.
  destruct X_train as [| row rest]; [contradiction |].
  assert (length row = 10%nat) as Hrow.
  { rewrite List.Forall_forall in Hrows. apply Hrows, Hsub. left. reflexivity. }
  destruct (scaler_fit_shape row rest) as (sc & Hsc & Hmean & Hscale & Hnz).
  rewrite Hsc. cbn [rbind].
  eexists. split; [reflexivity |].
  assert (Predict.trained_shape
            {| Predict.model :=
                 fit_forest
                   (map (fun x =>
                           Predict.standardize x (Predict.mean_ sc)
                                               (Predict.scale_ sc))
                        (row :: rest)) y_train;
               Predict.scaler := sc;
               Predict.label_encoders := encoders;
               Predict.feature_columns := Train.feature_cols |} = true)
    as Hshape.
  { unfold Predict.trained_shape.
    cbn [Predict.feature_columns Predict.label_encoders Predict.scaler].
    rewrite Hmean, Hscale, Hrow, Hnz.
    rewrite bool_decide_eq_true_2 by reflexivity.
    unfold Train.categorical_cols. cbn [forallb].
    rewrite Hv, Ho, Hw, Ht, Hd.
    rewrite !bool_decide_eq_true_2 by eauto. reflexivity. }
  split; [exact Hshape |].
  intros r Hr. apply list_elem_of_In, list_elem_of_lookup in Hr as [i Hi].
  destruct (Hagree
              (fit_forest
                 (map (fun x =>
                         Predict.standardize x (Predict.mean_ sc)
                                             (Predict.scale_ sc))
                      (row :: rest)) y_train) sc i r Hi)
    as (x & _ & _ & _ & Hpre).
  destruct (predict_succeeds _ path (Features.to_dict r)
              (Train.distance_km r) (Train.delivery_person_rating r)
              Hshape eq_refl eq_refl)
    as (out & _ & X' & res & _ & _ & Hpre' & Hpred).
  rewrite Hpre in Hpre'. injection Hpre' as <- _.
  exists res. exact Hpred.
Qed.

(** ** The five most important features *)

Lemma StronglySorted_app_order {A : Type} (R : A -> A -> Prop)
      (l1 l2 : list A) :
  StronglySorted R (l1 ++ l2)%list ->
  forall a b, In a l1 -> In b l2 -> R a b.
Proof.
  induction l1 as [| x l1 IH]; intros Hsorted a b Ha Hb; [destruct Ha |].
  cbn [app] in Hsorted. apply StronglySorted_inv in Hsorted as [Hrest Hx].
  destruct Ha as [<- | Ha].
  - rewrite List.Forall_forall in Hx. apply Hx.
    apply List.in_or_app. now right.
  - now apply IH.
Qed.

(** [train_model] stores the features ranked by importance, the largest
    first, and [get_model_info] shows the first five of them: whatever
    sorting function does the ranking, the five features shown are
    features of the model, and no feature left out is more important
    than one that is shown. *)
Theorem get_model_info_top_five
        (sort_values : list (string * Q) -> list (string * Q))
        (feature_importances_ : list Q)
        (self : Predict.DeliveryTimePredictor) (art : Predict.artifacts)
        (meta : Info.metadata) :
  (forall l, Permutation (sort_values l) l
             /\ StronglySorted (fun a b => snd b <= snd a) (sort_values l)) ->
  length feature_importances_ = length Train.feature_cols ->
  Predict.model_artifacts self = Some art ->
  Info.feature_importance meta
  = Some (Features.rank_features sort_values Train.feature_cols
                                 feature_importances_) ->
  exists info,
    Info.get_model_info self meta = inr info
    /\ length (Info.info_feature_importance info) = 5%nat
    /\ (forall shown,
          In shown (Info.info_feature_importance info) ->
          In shown (combine Train.feature_cols feature_importances_))
    /\ (forall shown left_out,
          In shown (Info.info_feature_importance info) ->
          In left_out (combine Train.feature_cols feature_importances_) ->
          ~ In left_out (Info.info_feature_importance info) ->
          snd left_out <= snd shown).
Proof.
  intros Hsort Hlen Hart Hmeta.
  unfold Info.get_model_info. rewrite Hart, Hmeta.
  eexists. split; [reflexivity |].
  cbn [Info.info_feature_importance default].
  unfold Features.rank_features.
  destruct (Hsort (combine Train.feature_cols feature_importances_))
    as [Hperm Hsorted].
  set (stored := sort_values (combine Train.feature_cols feature_importances_))
    in *.
  change (id stored) with stored.
  assert (length stored = 10%nat) as Hstored.
  { pose proof (Permutation_length Hperm) as Hl.
    rewrite List.length_combine, Hlen in Hl. exact Hl. }
  split; [rewrite length_take, Hstored; reflexivity |].
  split.
  - intros shown Hshown. apply (Permutation_in _ Hperm).
    rewrite <- (List.firstn_skipn 5 stored). apply List.in_or_app. now left.
  - intros shown left_out Hshown Hleft Hnot.
    apply (Permutation_in _ (Permutation_sym Hperm)) in Hleft.
    rewrite <- (List.firstn_skipn 5 stored) in Hleft, Hsorted.
    apply List.in_app_or in Hleft as [Hleft | Hleft]; [contradiction |].
    exact (StronglySorted_app_order _ _ _ Hsorted shown left_out Hshown Hleft).
Qed.

(** ** The fallbacks of the breakdown that are used *)

(** On a well-shaped bundle, for an input with a distance and a rating
    other than [-5/4], the breakdown is returned whatever else the input
    leaves out: an absent [preparation_time] counts as 15, an absent
    vehicle as ["bike"], an absent weather as ["clear"]; a weather
    outside the table has no delay; and the factors echo the input's own
    rating and distance and the vehicle and weather used. *)
Theorem breakdown_uses_fallbacks (art : Predict.artifacts) (path : string)
        (d : Predict.order_input) (dist rat : Q) :
  Predict.trained_shape art = true ->
  Predict.in_distance_km d = Some dist ->
  Predict.in_delivery_person_rating d = Some rat ->
  ~ rat == - (5 # 4) ->
  let self := {| Predict.model_path := path;
                 Predict.model_artifacts := Some art |} in
  let vehicle := default "bike" (Predict.in_vehicle_type d) in
  let weather := default "clear" (Predict.in_weather_condition d) in
  exists out res,
    Predict.predict_with_breakdown self (Predict.InDict d) = (out, Ok res)
    /\ Predict.b_preparation_time (Predict.result_breakdown res)
       = Num.py_round (default 15 (Predict.in_preparation_time d))
    /\ Predict.b_travel_time (Predict.result_breakdown res)
       = Num.py_round (dist * Predict.base_speed_of vehicle
                       / Predict.efficiency_of rat)
    /\ (weather ∉ ["clear"; "cloudy"; "light_rain"; "heavy_rain"; "storm"] ->
        Predict.b_weather_delay (Predict.result_breakdown res) = 0%Z)
    /\ Predict.result_factors res
       = {| Predict.f_delivery_person_rating := rat;
            Predict.f_vehicle_type := vehicle;
            Predict.f_distance_km := dist;
            Predict.f_weather_condition := weather |}.
Proof. apply breakdown_fallbacks. Qed.

(** * The further properties on the sample orders *)

Section MoreSamples.
Import Example TrainingExample.

Lemma preprocess_input_column_count_witness :
  exists out X,
    Predict.preprocess_input loaded (Predict.InDict sparse_order) = (out, Ok X)
    /\ length X = 10%nat.
Proof.
  eexists _, _.
  assert (Predict.preprocess_input loaded (Predict.InDict sparse_order)
          = (_, Ok _)) as Hp by (vm_compute; reflexivity).
  split; [exact Hp |].
  exact (preprocess_input_column_count loaded example_artifacts sparse_order
           _ _ eq_refl Hp).
Defined.

(** The drone order in closed form: two warnings, codes 0 for the vehicle
    and the weather. *)
Lemma preprocess_input_closed_form_witness :
  Predict.preprocess_input loaded (Predict.InDict drone_order)
  = (Predict.unseen_warning <$> ["vehicle_type"; "weather_condition"],
     Ok (Predict.VNum
           <$> [42 # 10; 35 # 10; 15; 0; 1; 0; 1; 0;
                (35 # 10) * (35 # 10); (42 # 10) * (35 # 10)])).
Proof.
  exact (preprocess_input_closed_form example_artifacts
           "delivery_time_model.pkl" drone_order (35 # 10) (42 # 10)
           example_artifacts_shape eq_refl eq_refl).
Defined.

Lemma predict_failure_wrapped_witness :
  (Predict.model_artifacts loaded = None
   /\ [] = ([] : list string)
   /\ ValueError "Prediction failed: 'distance_km'"
      = ValueError "Model not loaded. Cannot make predictions.")
  \/ (exists art cause,
        Predict.model_artifacts loaded = Some art
        /\ ValueError "Prediction failed: 'distance_km'"
           = ValueError ("Prediction failed: " ++ Predict.str_exn cause)).
Proof.
  apply (predict_failure_wrapped loaded
           (Predict.InDict order1_without_distance)).
  vm_compute. reflexivity.
Defined.


Lemma breakdown_zero_efficiency_raises_witness :
  exists out r,
    Predict.predict loaded (Predict.InDict stalled_order) = (out, Ok r)
    /\ Predict.predict_with_breakdown loaded (Predict.InDict stalled_order)
       = (out, Raise ZeroDivisionError).
Proof.
  apply (breakdown_zero_efficiency_raises example_artifacts
           "delivery_time_model.pkl" stalled_order (35 # 10) (- (5 # 4))
           example_artifacts_shape eq_refl eq_refl).
  reflexivity.
Defined.


(** The second sample order: 25 + 45 + 3 + 0 displayed for an estimate of
    [112/3], the formula exceeding the estimate. *)
Lemma breakdown_adds_up_witness :
  exists out res,
    Predict.predict_with_breakdown loaded (Predict.InDict order2)
    = (out, Ok res)
    /\ Predict.estimated_time (Predict.base_prediction res) - (3 # 2)
       <= inject_Z
            (Predict.b_preparation_time (Predict.result_breakdown res)
             + Predict.b_travel_time (Predict.result_breakdown res)
             + Predict.b_weather_delay (Predict.result_breakdown res)
             + Predict.b_traffic_and_other (Predict.result_breakdown res)).
Proof.
  eexists _, _.
  assert (Predict.predict_with_breakdown loaded (Predict.InDict order2)
          = (_, Ok _)) as Hp by (vm_compute; reflexivity).
  split; [exact Hp |].
  exact (proj1 (breakdown_adds_up _ _ _ _ Hp)).
Defined.

Lemma breakdown_uses_fallbacks_witness :
  exists out res,
    Predict.predict_with_breakdown loaded (Predict.InDict sparse_order)
    = (out, Ok res)
    /\ Predict.b_preparation_time (Predict.result_breakdown res)
       = Num.py_round 15
    /\ Predict.result_factors res
       = {| Predict.f_delivery_person_rating := 42 # 10;
            Predict.f_vehicle_type := "bike";
            Predict.f_distance_km := 35 # 10;
            Predict.f_weather_condition := "clear" |}.
Proof.
  destruct (breakdown_uses_fallbacks example_artifacts
              "delivery_time_model.pkl" sparse_order (35 # 10) (42 # 10)
              example_artifacts_shape eq_refl eq_refl)
    as (out & res & Hp & Hprep & _ & _ & Hfactors).
  { intros Heq. vm_compute in Heq. discriminate Heq. }
  exists out, res. split; [exact Hp |]. split; [exact Hprep | exact Hfactors].
Defined.




Lemma missing_encoder_raises_witness :
  exists out c',
    Predict.label_encoders no_vehicle_encoder_artifacts !! c' = None
    /\ Predict.preprocess_input (loaded_with no_vehicle_encoder_artifacts)
         (Predict.InDict order1)
       = (out, Raise (KeyError c'))
    /\ Predict.predict (loaded_with no_vehicle_encoder_artifacts)
         (Predict.InDict order1)
       = (out, Raise (ValueError ("Prediction failed: '" ++ c' ++ "'"))).
Proof.
  apply (missing_encoder_raises no_vehicle_encoder_artifacts
           "delivery_time_model.pkl" order1 "vehicle_type"
           (Predict.VStr "bike")).
  - unfold Predict.categorical_cols. name_in.
  - vm_compute. reflexivity.
  - vm_compute. reflexivity.
Defined.

Lemma missing_encoder_evaluated :
  Predict.predict (loaded_with no_vehicle_encoder_artifacts)
                  (Predict.InDict order1)
  = ([], Raise (ValueError "Prediction failed: 'vehicle_type'")).
Proof. vm_compute. reflexivity. Qed.

Lemma get_model_info_report_witness :
  match Info.get_model_info not_loaded example_metadata with
  | inl error => error = "Model not loaded"
  | inr _ => False
  end.
Proof.
  pose proof (get_model_info_report not_loaded example_metadata) as Hreport.
  destruct (Info.get_model_info not_loaded example_metadata) as [error | info].
  - apply Hreport.
  - destruct Hreport as (art & Hart & _). discriminate Hart.
Defined.

Lemma more_important_spec (a b : string * Q) :
  more_important a b <-> snd b <= snd a.
Proof.
  unfold more_important. rewrite Is_true_true. apply Qle_bool_iff.
Qed.

(** The stand-in for [sort_values] sorts: it permutes its argument and
    puts the larger importances first. *)
Lemma sort_by_importance_sorts (l : list (string * Q)) :
  Permutation (sort_by_importance l) l
  /\ StronglySorted (fun a b => snd b <= snd a) (sort_by_importance l).
Proof.
  unfold sort_by_importance. split; [apply merge_sort_Permutation |].
  assert (Transitive more_important) as Htrans.
  { intros a b c. rewrite !more_important_spec. intros ? ?. lra. }
  assert (Total more_important) as Htotal.
  { intros a b. rewrite !more_important_spec.
    destruct (Qlt_le_dec (snd a) (snd b)); [right; lra | left; lra]. }
  pose proof (StronglySorted_merge_sort more_important l) as Hsorted.
  induction Hsorted as [| a rest _ IH Ha]; constructor; [exact IH |].
  eapply List.Forall_impl; [| exact Ha].
  intros b. apply more_important_spec.
Qed.

Lemma get_model_info_top_five_witness :
  exists info,
    Info.get_model_info loaded example_metadata = inr info
    /\ length (Info.info_feature_importance info) = 5%nat.
Proof.
  destruct (get_model_info_top_five sort_by_importance importances loaded
              example_artifacts example_metadata sort_by_importance_sorts
              eq_refl eq_refl eq_refl) as (info & Hinfo & Hlen & _).
  exists info. split; [exact Hinfo | exact Hlen].
Defined.

(** The five features shown for the sample importances. *)
Lemma top_five_evaluated :
  match Info.get_model_info loaded example_metadata with
  | inr info =>
      map fst (Info.info_feature_importance info)
      = ["distance_km"; "distance_squared"; "preparation_time";
         "rating_distance_interaction"; "weather_condition_encoded"]
  | inl _ => False
  end.
Proof. vm_compute. reflexivity. Qed.

Lemma unit_draw_range (s : Z) : 0 <= unit_draw s /\ unit_draw s <= 1.
Proof.
  unfold unit_draw.
  pose proof (Z.mod_pos_bound s 1000 ltac:(lia)) as [Hlo Hhi].
  split.
  - apply Qle_shift_div_l; [reflexivity |].
    rewrite Qmult_0_l. change 0 with (inject_Z 0). now rewrite <- Zle_Qle.
  - apply Qle_shift_div_r; [reflexivity |].
    rewrite Qmult_1_l. change 1000 with (inject_Z 1000).
    rewrite <- Zle_Qle. lia.
Qed.

(** The stand-in generator honours the ranges of its samplers. *)
Lemma lcg_uniform_in_range (s : Z) :
  1 <= fst (Train.uniform 1 5 s) /\ fst (Train.uniform 1 5 s) <= 5.
Proof.
  cbn [Train.uniform lcg_random fst].
  pose proof (unit_draw_range s) as [Hlo Hhi]. split; lra.
Qed.

Lemma lcg_choice_in_options (options : list string) (p : option (list Q))
      (s : Z) :
  options <> [] -> In (fst (Train.choice options p s)) options.
Proof.
  intros Hne. cbn [Train.choice lcg_random fst]. unfold pick.
  apply List.nth_In.
  assert (0 < Z.of_nat (length options))%Z as Hlen
      by (destruct options; [congruence | cbn [length]; lia]).
  pose proof (Z.mod_pos_bound s _ Hlen). lia.
Qed.

Lemma calculate_delivery_time_bad_row_witness :
  fst (Train.calculate_delivery_time bad_frame 7%Z) = Raise ZeroDivisionError.
Proof.
  apply calculate_delivery_time_bad_row.
  unfold bad_frame. apply Exists_cons_tl, Exists_cons_hd. reflexivity.
Defined.

Lemma labels_one_per_row_floored_witness :
  exists y,
    fst (Train.calculate_delivery_time small_frame 7%Z) = Ok y
    /\ length y = 3%nat
    /\ Forall (fun t => 10 <= t) y.
Proof.
  apply (labels_one_per_row_floored small_frame 7%Z).
  unfold small_frame, Spec.valid_rating.
  repeat constructor; vm_compute; discriminate.
Defined.

Lemma generated_records_in_schema_witness :
  Forall
    (fun r =>
       Spec.valid_rating r
       /\ In (Train.vehicle_type r) ["bike"; "bicycle"]
       /\ In (Train.order_type r) ["normal"; "delicate"]
       /\ In (Train.weather_condition r)
             ["clear"; "cloudy"; "light_rain"; "heavy_rain"; "storm"]
       /\ In (Train.time_of_day r) ["morning"; "afternoon"; "evening"; "night"]
       /\ In (Train.day_of_week r) ["weekday"; "weekend"])
    (fst (Train.generate_sample_data 4 0%Z)).
Proof.
  exact (generated_records_in_schema 4 0%Z lcg_uniform_in_range
           lcg_choice_in_options).
Defined.

Lemma generated_frame_has_labels_witness :
  exists y,
    fst (Train.calculate_delivery_time
           (fst (Train.generate_sample_data 4 0%Z))
           (snd (Train.generate_sample_data 4 0%Z))) = Ok y
    /\ length y = 4%nat
    /\ Forall (fun t => 10 <= t) y.
Proof.
  exact (generated_frame_has_labels 4 0%Z lcg_uniform_in_range).
Defined.

Lemma fit_knows_exactly_its_column_witness :
  exists code,
    Predict.le_transform
      (Features.fit ["bike"; "bicycle"; "bike"]) (Predict.VStr "bike")
    = Ok code.
Proof.
  apply (fit_knows_exactly_its_column ["bike"; "bicycle"; "bike"] "bike").
  name_in.
Defined.

(** The vehicle column of the small frame: classes [bicycle; bike], codes
    1, 0, 1. *)
Lemma fit_transform_round_trip_witness :
  exists code : nat,
    length (snd (Features.fit_transform ["bike"; "bicycle"; "bike"])) = 3%nat
    /\ snd (Features.fit_transform ["bike"; "bicycle"; "bike"]) !! 1%nat
       = Some (inject_Z (Z.of_nat code))
    /\ (code
        < length (Predict.classes_
                    (fst (Features.fit_transform ["bike"; "bicycle"; "bike"]))))%nat
    /\ Predict.classes_
         (fst (Features.fit_transform ["bike"; "bicycle"; "bike"])) !! code
       = Some "bicycle"
    /\ Predict.le_transform
         (fst (Features.fit_transform ["bike"; "bicycle"; "bike"]))
         (Predict.VStr "bicycle")
       = Ok (Z.of_nat code).
Proof.
  exact (fit_transform_round_trip ["bike"; "bicycle"; "bike"] 1 "bicycle"
           eq_refl).
Defined.

Lemma fit_transform_evaluated :
  Features.fit_transform ["bike"; "bicycle"; "bike"]
  = ({| Predict.classes_ := ["bicycle"; "bike"] |}, [1; 0; 1]).
Proof. vm_compute. reflexivity. Qed.

Lemma preprocess_features_agrees_with_predict_witness :
  exists x,
    length (fst (Features.preprocess_features small_frame)) = 3%nat
    /\ fst (Features.preprocess_features small_frame) !! 1%nat = Some x
    /\ length x = 10%nat
    /\ Predict.preprocess_input
         (loaded_with
            {| Predict.model := example_model;
               Predict.scaler := example_scaler;
               Predict.label_encoders :=
                 snd (Features.preprocess_features small_frame);
               Predict.feature_columns := Train.feature_cols |})
         (Predict.InDict order2)
       = ([], Ok (Predict.VNum <$> x)).
Proof.
  exact (preprocess_features_agrees_with_predict small_frame example_model
           example_scaler "delivery_time_model.pkl" 1
           (Train.mk_order (38 # 10) (72 # 10) 25 "bicycle" "delicate"
                           "light_rain" "afternoon" "weekend")
           eq_refl).
Defined.

(** The feature matrix of the small frame. *)
Lemma preprocess_features_evaluated :
  fst (Features.preprocess_features small_frame)
  = [[42 # 10; 35 # 10; 15; 1; 1; 0; 1; 0;
      (35 # 10) * (35 # 10); (42 # 10) * (35 # 10)];
     [38 # 10; 72 # 10; 25; 0; 0; 1; 0; 1;
      (72 # 10) * (72 # 10); (38 # 10) * (72 # 10)];
     [42 # 10; 35 # 10; 15; 1; 1; 0; 1; 0;
      (35 # 10) * (35 # 10); (42 # 10) * (35 # 10)]].
Proof. vm_compute. reflexivity. Qed.

Lemma train_model_bundle_serves_its_data_witness :
  exists art,
    Features.train_model keep_all mean_forest 0%Z = Ok art
    /\ Predict.trained_shape art = true.
Proof.
  destruct (train_model_bundle_serves_its_data keep_all mean_forest
              "delivery_time_model.pkl" 0%Z lcg_uniform_in_range)
    as (art & Htrain & Hshape & _).
  { intros X y HX. unfold keep_all. cbn [fst]. auto. }
  exists art. split; [exact Htrain | exact Hshape].
Defined.

End MoreSamples.

(** ** The predictor without a bundle, and with an input of the wrong type *)

(** A load that fails -- the first one of [__init__] or a later reload of
    a predictor that had a bundle -- leaves a predictor on which every
    method refuses: [preprocess_input], [predict] and
    [predict_with_breakdown] raise their "Model not loaded" [ValueError]
    before they print or look at the input, and [get_model_info] returns
    the error mapping. *)
Theorem failed_load_disables_predictor
        (self : Predict.DeliveryTimePredictor) (o : Predict.load_outcome)
        (input : Predict.input_data) (meta : Info.metadata) :
  (forall a, o <> Predict.Loaded a) ->
  let self' := snd (Predict.load_model self o) in
  Predict.model_path self' = Predict.model_path self
  /\ Predict.preprocess_input self' input
     = ([], Raise (ValueError "Model not loaded. Cannot preprocess input."))
  /\ Predict.predict self' input
     = ([], Raise (ValueError "Model not loaded. Cannot make predictions."))
  /\ Predict.predict_with_breakdown self' input
     = ([], Raise (ValueError "Model not loaded. Cannot make predictions."))
  /\ Info.get_model_info self' meta = inl "Model not loaded".
Proof.
  intros Hfail self'.
  assert (Predict.model_artifacts self' = None) as Hnone.
  { subst self'. destruct o as [a | | msg]; [| reflexivity | reflexivity].
    now destruct (Hfail a). }
  assert (Predict.predict self' input
          = ([], Raise (ValueError "Model not loaded. Cannot make predictions.")))
    as Hpredict.
  { unfold Predict.predict. now rewrite Hnone. }
  repeat split.
  - subst self'. now destruct o.
  - unfold Predict.preprocess_input. now rewrite Hnone.
  - exact Hpredict.
  - unfold Predict.predict_with_breakdown. now rewrite Hpredict.
  - unfold Info.get_model_info. now rewrite Hnone.
Qed.

(** An input that is neither a dict nor a DataFrame never reaches the
    [.iloc] of [predict_with_breakdown]: the type check of
    [preprocess_input] raises first, [predict] wraps it, and
    [predict_with_breakdown] lets that [ValueError] through, with nothing
    printed. *)
Theorem wrong_input_type_rejected (self : Predict.DeliveryTimePredictor)
        (art : Predict.artifacts) :
  Predict.model_artifacts self = Some art ->
  Predict.preprocess_input self Predict.InOther
  = ([], Raise (ValueError
                  "Input data must be a dictionary or pandas DataFrame"))
  /\ Predict.predict self Predict.InOther
     = ([], Raise (ValueError
                     "Prediction failed: Input data must be a dictionary or pandas DataFrame"))
  /\ Predict.predict_with_breakdown self Predict.InOther
     = ([], Raise (ValueError
                     "Prediction failed: Input data must be a dictionary or pandas DataFrame")).
Proof.
  intros Hart.
  assert (Predict.preprocess_input self Predict.InOther
          = ([], Raise (ValueError
                          "Input data must be a dictionary or pandas DataFrame")))
    as Hpre by (unfold Predict.preprocess_input; now rewrite Hart).
  assert (Predict.predict self Predict.InOther
          = ([], Raise (ValueError
                          "Prediction failed: Input data must be a dictionary or pandas DataFrame")))
    as Hpredict.
  { unfold Predict.predict. rewrite Hart, Hpre. reflexivity. }
  repeat split; [exact Hpre | exact Hpredict |].
  unfold Predict.predict_with_breakdown. now rewrite Hpredict.
Qed.

Section LifecycleSamples.
Import Example.

(** A loaded predictor whose reload finds no file. *)
Lemma failed_load_disables_predictor_witness :
  Predict.model_path (snd (Predict.load_model loaded Predict.FileNotFoundError))
  = Predict.model_path loaded
  /\ Predict.preprocess_input
       (snd (Predict.load_model loaded Predict.FileNotFoundError))
       (Predict.InDict order1)
     = ([], Raise (ValueError "Model not loaded. Cannot preprocess input."))
  /\ Predict.predict
       (snd (Predict.load_model loaded Predict.FileNotFoundError))
       (Predict.InDict order1)
     = ([], Raise (ValueError "Model not loaded. Cannot make predictions."))
  /\ Predict.predict_with_breakdown
       (snd (Predict.load_model loaded Predict.FileNotFoundError))
       (Predict.InDict order1)
     = ([], Raise (ValueError "Model not loaded. Cannot make predictions."))
  /\ Info.get_model_info
       (snd (Predict.load_model loaded Predict.FileNotFoundError))
       TrainingExample.example_metadata
     = inl "Model not loaded".
Proof.
  apply (failed_load_disables_predictor loaded Predict.FileNotFoundError
           (Predict.InDict order1) TrainingExample.example_metadata).
  intros a. discriminate.
Defined.

Lemma wrong_input_type_rejected_witness :
  Predict.preprocess_input loaded Predict.InOther
  = ([], Raise (ValueError
                  "Input data must be a dictionary or pandas DataFrame"))
  /\ Predict.predict loaded Predict.InOther
     = ([], Raise (ValueError
                     "Prediction failed: Input data must be a dictionary or pandas DataFrame"))
  /\ Predict.predict_with_breakdown loaded Predict.InOther
     = ([], Raise (ValueError
                     "Prediction failed: Input data must be a dictionary or pandas DataFrame")).
Proof.
  exact (wrong_input_type_rejected loaded example_artifacts eq_refl).
Defined.

End LifecycleSamples.
